(** * SimpleSymbolSupplier: a shallow embedding of
      src/processor/simple_symbol_supplier.cc

    The file models the symbol supplier of the processor: the derivation of
    the on-disk symbol path of a code module, the download-and-convert step
    taken when that file is missing, the directory helper [mkpath], and the
    registry of character buffers handed out by [GetCStringSymbolData].

    Strings are [string] values (lists of 8-bit characters, so that a NUL or
    a 0xFF byte can occur in file contents).  Services of the C library, of
    libcurl and of the C++ runtime are taken through the record [Libc]; the
    supplier's code is written once over any such record. *)

From Stdlib Require Import String Ascii List ZArith Lia Bool.
From stdpp Require Import base option gmap strings.

Local Open Scope string_scope.
Local Open Scope Z_scope.

(** ** Characters and std::string operations *)

Module Str.

Definition NUL : ascii := "000"%char.

(** [char(-1)], the value of
    [string::traits_type::to_char_type(string::traits_type::eof())]. *)
Definition EOF_char : ascii := "255"%char.

(** [std::string::substr(pos)] for [pos <= size()]. *)
Fixpoint drop (n : nat) (s : string) : string :=
  match n, s with
  | O, _ => s
  | S n', String _ s' => drop n' s'
  | S _, EmptyString => EmptyString
  end.

(** [std::string::substr(0, n)]; the count is clipped at the end. *)
Fixpoint take (n : nat) (s : string) : string :=
  match n, s with
  | S n', String c s' => String c (take n' s')
  | _, _ => EmptyString
  end.

(** [std::string::substr(pos, n)]. *)
Definition substr (pos n : nat) (s : string) : string := take n (drop pos s).

Definition empty (s : string) : bool :=
  match s with EmptyString => true | _ => false end.

(** [tolower] of the C locale: only 'A'..'Z' are mapped. *)
Definition tolower (c : ascii) : ascii :=
  let n := nat_of_ascii c in
  if (Nat.leb 65 n && Nat.leb n 90)%bool then ascii_of_nat (n + 32) else c.

(** [std::transform(s.begin(), s.end(), s.begin(), f)]. *)
Fixpoint transform (f : ascii -> ascii) (s : string) : string :=
  match s with
  | EmptyString => EmptyString
  | String c s' => String (f c) (transform f s')
  end.

(** The C string seen through [s.c_str()]: the characters before the first
    NUL. *)
Fixpoint c_str (s : string) : string :=
  match s with
  | EmptyString => EmptyString
  | String c s' => if Ascii.eqb c NUL then EmptyString else String c (c_str s')
  end.

(** What [std::getline(in, str, delim)] stores when the stream holds
    [content]: the characters before the first [delim]. *)
Fixpoint getline (content : string) (delim : ascii) : string :=
  match content with
  | EmptyString => EmptyString
  | String c s' =>
      if Ascii.eqb c delim then EmptyString else String c (getline s' delim)
  end.

(** [s.rfind(c)]: the index of the last occurrence. *)
Fixpoint rfind (c : ascii) (s : string) : option nat :=
  match s with
  | EmptyString => None
  | String d s' =>
      match rfind c s' with
      | Some i => Some (S i)
      | None => if Ascii.eqb d c then Some O else None
      end
  end.

End Str.

(** ** The code module and the result codes *)

Record CodeModule := {
  code_file : string;
  debug_file : string;
  debug_identifier : string;
  version : string
}.

Inductive SymbolResult := NOT_FOUND | FOUND | INTERRUPT.

Definition SymbolResult_eqb (a b : SymbolResult) : bool :=
  match a, b with
  | NOT_FOUND, NOT_FOUND | FOUND, FOUND | INTERRUPT, INTERRUPT => true
  | _, _ => false
  end.

Module PathnameStripper.

(** Modelled from the spec: [PathnameStripper::File]
    (processor/pathname_stripper.h) is not among the sources at hand.  The
    specification says that the directory components of the name are
    stripped; the base name is what follows the last slash or backslash of
    the path, the two separators [mkpath] below recognises as well. *)
Definition File (path : string) : string :=
  let slash := Str.rfind "/"%char path in
  let backslash := Str.rfind "\"%char path in
  let file_start :=
    match slash, backslash with
    | Some s, None => S s
    | Some s, Some b => if Nat.ltb b s then S s else S b
    | None, Some b => S b
    | None, None => O
    end in
  Str.drop file_start path.

End PathnameStripper.

(** ** Path derivation (GetSymbolFileAtPathFromRoot, up to [path.append(".sym")]) *)

(** The debug file name used as a directory name: the stripped [debug_file],
    or, when that is empty and the stripped [code_file] is longer than three
    characters, the code file with its last three characters replaced by
    "pdb". *)
Definition debug_file_name_of (m : CodeModule) : string :=
  let debug_file_name := PathnameStripper.File (debug_file m) in
  let code_file := PathnameStripper.File (code_file m) in
  if (Str.empty debug_file_name && Nat.ltb 3 (String.length code_file))%bool
  then Str.substr 0 (String.length code_file - 3) code_file ++ "pdb"
  else debug_file_name.

(** The directory part: root, debug file name and, when one of them is not
    empty, the identifier or else the version. *)
Definition symbol_dir (root_path debug_file_name : string) (m : CodeModule) : string :=
  let path := root_path ++ "/" ++ debug_file_name in
  let identifier := debug_identifier m in
  let version := version m in
  if (negb (Str.empty identifier) || negb (Str.empty version))%bool then
    path ++ "/" ++ (if negb (Str.empty identifier) then identifier else version)
  else path.

(** The file name without extension: the debug file name, less a trailing
    ".pdb" (any case) when the name is longer than four characters. *)
Definition file_stem (debug_file_name : string) : string :=
  let size := String.length debug_file_name in
  let debug_file_extension :=
    if Nat.ltb 4 size then Str.drop (size - 4) debug_file_name else "" in
  let debug_file_extension := Str.transform Str.tolower debug_file_extension in
  if String.eqb debug_file_extension ".pdb"
  then Str.substr 0 (size - 4) debug_file_name
  else debug_file_name.

(** The pair [(path, path_pdb)] of the source, or [None] where the source
    returns NOT_FOUND for want of a debug file name. *)
Definition symbol_paths (m : CodeModule) (root_path : string) : option (string * string) :=
  let debug_file_name := debug_file_name_of m in
  if Str.empty debug_file_name then None
  else
    let path := symbol_dir root_path debug_file_name m ++ "/" ++ file_stem debug_file_name in
    Some (path ++ ".sym", path ++ ".pdb").

Definition symbol_server : string := "http://msdl.microsoft.com/download/symbols".

(** [string(base) + (path_pdb.c_str() + root_path.length())]. *)
Definition symbol_url (root_path path_pdb : string) : string :=
  symbol_server ++ Str.c_str (Str.drop (String.length root_path) path_pdb).

(** ** The services the supplier calls *)

Inductive errno := EEXIST | ENOENT | EACCES | ENOTDIR | ENOSPC | EROFS.

Definition is_ENOENT (r : option errno) : bool :=
  match r with Some ENOENT => true | _ => false end.

(** What libcurl does with a URL: [curl_easy_init] fails, or
    [curl_easy_perform] hands the body to the write callback chunk by chunk
    and returns [CURLE_OK] ([ok = true]) or an error code. *)
Inductive curl_outcome :=
| curl_init_failed
| curl_performed (chunks : list string) (ok : bool).

(** The operating system as the supplier sees it, over a type [W] of worlds
    (file system and whatever else the services depend on).
    - [stat w p]: [stat(p, &sb) == 0];
    - [mkdir w p]: the new world and [None] for a return value of 0, or
      [Some e] for -1 with [errno = e];
    - [fopen_wb w p]: [fopen(p, "wb")], [None] for a null stream, otherwise
      the world in which the file exists and is empty;
    - [fwrite_bytes w p d]: the bytes [d] written to, and [fclose] of, the
      stream opened on [p];
    - [ifstream_read w p]: the contents an [std::ifstream] opened on [p]
      delivers, [None] when it cannot be opened;
    - [system w cmd]: the world after the command and its exit status;
    - [malloc w n]: whether [malloc(n)] (or [realloc]) returns storage;
    - [new_char h n]: the address [new char[n]] returns in the heap [h];
      [None] when storage is exhausted: plain [new] then throws
      [std::bad_alloc], it never returns a null pointer;
    - [uninit_int]: the indeterminate value of an [int] that was never
      assigned. *)
Record Libc (W : Type) := {
  stat : W -> string -> bool;
  mkdir : W -> string -> W * option errno;
  fopen_wb : W -> string -> option W;
  fwrite_bytes : W -> string -> string -> W;
  unlink : W -> string -> W;
  ifstream_read : W -> string -> option string;
  system : W -> string -> W * Z;
  curl : W -> string -> curl_outcome;
  malloc : W -> nat -> bool;
  new_char : gmap positive string -> nat -> option positive;
  uninit_int : Z
}.

Arguments stat {W}.
Arguments mkdir {W}.
Arguments fopen_wb {W}.
Arguments fwrite_bytes {W}.
Arguments unlink {W}.
Arguments ifstream_read {W}.
Arguments system {W}.
Arguments curl {W}.
Arguments malloc {W}.
Arguments new_char {W}.
Arguments uninit_int {W}.

(** The calls made, in order: to the operating system and to libcurl, and
    [find] on the registry of buffers. *)
Inductive event :=
| ev_stat (p : string)
| ev_curl (url : string)
| ev_mkdir (p : string) (r : option errno)
| ev_fopen (p : string)
| ev_system (cmd : string)
| ev_unlink (p : string)
| ev_ifstream (p : string)
| ev_find (key : string).

Definition is_fetch_or_convert (e : event) : bool :=
  match e with ev_curl _ | ev_system _ => true | _ => false end.

(** The state a call runs in: the world, the heap of character arrays, the
    two data members of the supplier, and the trace. *)
Record State (W : Type) := {
  world : W;
  heap : gmap positive string;
  paths_ : list string;
  memory_buffers_ : gmap string positive;
  trace : list event
}.

Arguments world {W}.
Arguments heap {W}.
Arguments paths_ {W}.
Arguments memory_buffers_ {W}.
Arguments trace {W}.

Definition set_world {W} (w : W) (st : State W) : State W :=
  {| world := w; heap := heap st; paths_ := paths_ st;
     memory_buffers_ := memory_buffers_ st; trace := trace st |}.

Definition set_heap {W} (h : gmap positive string) (st : State W) : State W :=
  {| world := world st; heap := h; paths_ := paths_ st;
     memory_buffers_ := memory_buffers_ st; trace := trace st |}.

Definition set_memory_buffers {W} (b : gmap string positive) (st : State W) : State W :=
  {| world := world st; heap := heap st; paths_ := paths_ st;
     memory_buffers_ := b; trace := trace st |}.

Definition record {W} (e : event) (st : State W) : State W :=
  {| world := world st; heap := heap st; paths_ := paths_ st;
     memory_buffers_ := memory_buffers_ st; trace := trace st ++ [e] |}.

(** A computation returns a value and a state, or returns nothing
    ([None]): its behaviour is undefined, or an exception leaves it. *)
Definition M (W A : Type) : Type := State W -> option (A * State W).

Definition ret {W A} (a : A) : M W A := fun st => Some (a, st).

Definition bind {W A B} (m : M W A) (k : A -> M W B) : M W B :=
  fun st => match m st with Some (a, st') => k a st' | None => None end.

Notation "'do' x <- m ;; k" := (bind m (fun x => k))
  (at level 10, x name, m at level 99, k at level 200, only parsing).


(** ** The supplier over an operating system *)

Section Supplier.

Context {W : Type} (libc : Libc W).

Definition INT_MAX : Z := 2147483647.

(** [file_exists]: [stat(file_name.c_str(), &sb) == 0]. *)
Definition file_exists (file_name : string) : M W bool :=
  fun st =>
    let p := Str.c_str file_name in
    Some (stat libc (world st) p, record (ev_stat p) st).

(** [struct buffer]: [m_buffer] is [None] for a null pointer. *)
Record buffer := { m_buffer : option string; m_buf_size : Z }.

(** The write callback: the buffer grows by [size*nmemb] bytes and the
    chunk is copied to its end.  The size is an [int]: when it would pass
    [INT_MAX], or [realloc] returns no storage, the [memcpy] has undefined
    behaviour. *)
Definition buffer_write_cb (chunk : string) (b : buffer) : M W buffer :=
  fun st =>
    let buf_pos := m_buf_size b in
    let new_size := buf_pos + Z.of_nat (String.length chunk) in
    if (new_size <=? INT_MAX) && malloc libc (world st) (Z.to_nat new_size) then
      Some ({| m_buffer := Some (default "" (m_buffer b) ++ chunk);
               m_buf_size := new_size |}, st)
    else None.

Fixpoint deliver (chunks : list string) (b : buffer) : M W buffer :=
  match chunks with
  | [] => ret b
  | chunk :: rest => do b' <- buffer_write_cb chunk b ;; deliver rest b'
  end.

(** [load_url]: the returned pointer ([None] for 0) and the value stored
    through [size] ([None] when [*size] is left untouched). *)
Definition load_url (url : string) : M W (option string * option Z) :=
  fun st =>
    let st := record (ev_curl url) st in
    match curl libc (world st) url with
    | curl_init_failed => Some ((None, None), st)
    | curl_performed chunks ok =>
        match deliver chunks {| m_buffer := None; m_buf_size := 0 |} st with
        | None => None
        | Some (b, st') =>
            if ok then Some ((m_buffer b, Some (m_buf_size b)), st')
            else Some ((None, None), st')
        end
    end.

Definition do_mkdir (p : string) : M W (option errno) :=
  fun st =>
    let '(w, r) := mkdir libc (world st) p in
    Some (r, record (ev_mkdir p r) (set_world w st)).

Definition is_separator (c : ascii) : bool :=
  (Ascii.eqb c "\"%char || Ascii.eqb c "/"%char)%bool.

(** The loop of [mkpath]: [done] is the part of the buffer before [p],
    [rest] the part from [p] on.  At each separator the prefix is created;
    only [ENOENT] ends the loop with a failure. *)
Fixpoint mkpath_loop (done rest : string) : M W Z :=
  match rest with
  | EmptyString => ret 1
  | String c rest' =>
      if is_separator c then
        do r <- do_mkdir done ;;
        if is_ENOENT r then ret 0
        else mkpath_loop (done ++ String c EmptyString) rest'
      else mkpath_loop (done ++ String c EmptyString) rest'
  end.

Definition last_char (s : string) : option ascii :=
  String.get (String.length s - 1) s.

(** [mkpath(path)], [path] a C string: 1 for success, 0 for failure. *)
Definition mkpath (path : string) : M W Z :=
  let len := String.length path in
  if Nat.leb len 0 then ret 0
  else fun st =>
    if negb (malloc libc (world st) (len + 1)) then Some (0, st)
    else
      let loop := mkpath_loop (Str.take 1 path) (Str.drop 1 path) in
      if decide (last_char path = Some "/"%char) then
        (do r <- do_mkdir (Str.take (len - 1) path) ;;
         match r with
         | None => ret 1
         | Some _ => loop
         end) st
      else loop st.

Definition do_fopen_wb (p : string) : M W bool :=
  fun st =>
    match fopen_wb libc (world st) p with
    | Some w => Some (true, record (ev_fopen p) (set_world w st))
    | None => Some (false, record (ev_fopen p) st)
    end.

(** [fwrite(data, 1, buf_size, f); fclose(f)] on the stream opened on [p].
    [buf_size] is converted to [size_t]; reading that many bytes is defined
    only when [data] points to at least as many, or when the count is 0. *)
Definition do_fwrite (data : option string) (buf_size : Z) (p : string) : M W unit :=
  fun st =>
    if buf_size =? 0 then Some (tt, set_world (fwrite_bytes libc (world st) p "") st)
    else
      match data with
      | Some d =>
          if (0 <? buf_size) && (buf_size <=? Z.of_nat (String.length d)) then
            Some (tt, set_world
                        (fwrite_bytes libc (world st) p (Str.take (Z.to_nat buf_size) d)) st)
          else None
      | None => None
      end.

Definition do_system (cmd : string) : M W Z :=
  fun st =>
    let '(w, status) := system libc (world st) cmd in
    Some (status, record (ev_system cmd) (set_world w st)).

Definition do_unlink (p : string) : M W unit :=
  fun st => Some (tt, record (ev_unlink p) (set_world (unlink libc (world st) p) st)).

(** The command line under [__linux__]. *)
Definition convert_cmd (path path_pdb : string) : string :=
  "wine dump_syms.exe " ++ path_pdb ++ " >" ++ path.

(** The body of [if (!file_exists(path))] in GetSymbolFileAtPathFromRoot:
    download, store as [path_pdb], convert into [path]. *)
Definition download_and_convert (root_path path path_pdb : string) : M W unit :=
  let url := symbol_url root_path path_pdb in
  do loaded <- load_url (Str.c_str url) ;;
  let data := fst loaded in
  let buf_size := default (uninit_int libc) (snd loaded) in
  do _ <- mkpath (Str.c_str path_pdb) ;;
  do f <- do_fopen_wb (Str.c_str path_pdb) ;;
  do _ <- (if f then do_fwrite data buf_size (Str.c_str path_pdb) else ret tt) ;;
  do status <- do_system (Str.c_str (convert_cmd path path_pdb)) ;;
  if status =? 0 then do_unlink (Str.c_str path_pdb) else ret tt.

(** GetSymbolFileAtPathFromRoot: the result and the value left in
    [*symbol_file].  [module] is [None] for a null pointer; [system_info]
    is not used by the source and is left out. *)
Definition GetSymbolFileAtPathFromRoot (module : option CodeModule) (root_path : string)
  : M W (SymbolResult * string) :=
  match module with
  | None => ret (NOT_FOUND, "")
  | Some m =>
      match symbol_paths m root_path with
      | None => ret (NOT_FOUND, "")
      | Some (path, path_pdb) =>
          do present <- file_exists path ;;
          do _ <- (if negb present then download_and_convert root_path path path_pdb
                   else ret tt) ;;
          do present' <- file_exists path ;;
          if negb present' then ret (NOT_FOUND, "") else ret (FOUND, path)
      end
  end.

(** The loop of GetSymbolFile over [paths_]. *)
Fixpoint GetSymbolFile_from (module : option CodeModule) (paths : list string)
  : M W (SymbolResult * string) :=
  match paths with
  | [] => ret (NOT_FOUND, "")
  | root_path :: rest =>
      do r <- GetSymbolFileAtPathFromRoot module root_path ;;
      if negb (SymbolResult_eqb (fst r) NOT_FOUND) then ret r
      else GetSymbolFile_from module rest
  end.

(** GetSymbolFile(module, system_info, symbol_file). *)
Definition GetSymbolFile (module : option CodeModule) : M W (SymbolResult * string) :=
  fun st => GetSymbolFile_from module (paths_ st) st.

Definition do_ifstream (p : string) : M W (option string) :=
  fun st => Some (ifstream_read libc (world st) p, record (ev_ifstream p) st).

(** GetSymbolFile(module, system_info, symbol_file, symbol_data): the
    result, [*symbol_file] and [*symbol_data]. *)
Definition GetSymbolFileData (module : option CodeModule)
  : M W (SymbolResult * string * string) :=
  do r <- GetSymbolFile module ;;
  if SymbolResult_eqb (fst r) FOUND then
    do content <- do_ifstream (Str.c_str (snd r)) ;;
    match content with
    | Some c => ret (r, Str.getline c Str.EOF_char)
    | None => ret (r, "")
    end
  else ret (r, "").

(** What GetCStringSymbolData leaves in [*symbol_data] and
    [*symbol_data_size]; [None] when the two are not assigned. *)
Definition c_string_out : Type := option (option positive * nat).

(** [memory_buffers_.insert(make_pair(key, p))]: [std::map::insert] keeps
    the element already stored under an equal key. *)
Definition map_insert (key : string) (p : positive) (m : gmap string positive)
  : gmap string positive :=
  match m !! key with
  | Some _ => m
  | None => <[key := p]> m
  end.

(** GetCStringSymbolData: the result, [*symbol_file] and the two output
    parameters.  The array holds the data followed by a NUL.  When [new]
    throws, the exception leaves the function ([None]); the pointer it
    returns otherwise is never null, so the test [*symbol_data == NULL] of
    the source never holds and its [return INTERRUPT] is never reached.  A
    null [module] with a FOUND result would be dereferenced ([None]). *)
Definition GetCStringSymbolData (module : option CodeModule)
  : M W (SymbolResult * string * c_string_out) :=
  do r <- GetSymbolFileData module ;;
  let s := fst (fst r) in
  let symbol_file := snd (fst r) in
  let symbol_data_string := snd r in
  if SymbolResult_eqb s FOUND then
    fun st =>
      let symbol_data_size := (String.length symbol_data_string + 1)%nat in
      match new_char libc (heap st) symbol_data_size with
      | None => None
      | Some p =>
          match module with
          | None => None
          | Some m =>
              let st := set_heap (<[p := symbol_data_string ++ String Str.NUL ""]> (heap st)) st in
              let st := set_memory_buffers (map_insert (code_file m) p (memory_buffers_ st)) st in
              Some ((s, symbol_file, Some (Some p, symbol_data_size)), st)
          end
      end
  else ret (s, symbol_file, None).

(** FreeSymbolData. *)
Definition FreeSymbolData (module : option CodeModule) : M W unit :=
  match module with
  | None => ret tt
  | Some m =>
      fun st =>
        let st := record (ev_find (code_file m)) st in
        match memory_buffers_ st !! code_file m with
        | None => Some (tt, st)
        | Some p =>
            let st := set_heap (delete p (heap st)) st in
            Some (tt, set_memory_buffers (delete (code_file m) (memory_buffers_ st)) st)
        end
  end.

End Supplier.

(** ** A file system in memory

    A small instance of [Libc], used to run the supplier on concrete inputs:
    regular files with their contents, directories, and the directories in
    which nothing may be created or removed.  Path names are compared as
    written (no ".", "..", doubled or trailing slashes). *)

Module MemFS.

Record fs := {
  files : gmap string string;
  dirs : gset string;
  read_only : gset string
}.

Definition dirname (p : string) : string :=
  match Str.rfind "/"%char p with
  | None => "."
  | Some O => "/"
  | Some i => Str.take i p
  end.

Definition is_file (w : fs) (p : string) : bool := bool_decide (is_Some (files w !! p)).
Definition is_dir (w : fs) (p : string) : bool := bool_decide (p ∈ dirs w).
Definition is_read_only (w : fs) (p : string) : bool := bool_decide (p ∈ read_only w).

Definition fs_stat (w : fs) (p : string) : bool := (is_file w p || is_dir w p)%bool.

Definition fs_mkdir (w : fs) (p : string) : fs * option errno :=
  if Str.empty p then (w, Some ENOENT)
  else if fs_stat w p then (w, Some EEXIST)
  else if is_file w (dirname p) then (w, Some ENOTDIR)
  else if negb (is_dir w (dirname p)) then (w, Some ENOENT)
  else if is_read_only w (dirname p) then (w, Some EACCES)
  else ({| files := files w; dirs := {[p]} ∪ dirs w; read_only := read_only w |}, None).

Definition truncate (w : fs) (p : string) : fs :=
  {| files := <[p := ""]> (files w); dirs := dirs w; read_only := read_only w |}.

Definition fs_fopen_wb (w : fs) (p : string) : option fs :=
  if is_dir w p then None
  else if negb (is_dir w (dirname p)) then None
  else if is_file w p then Some (truncate w p)
  else if is_read_only w (dirname p) then None
  else Some (truncate w p).

Definition fs_fwrite_bytes (w : fs) (p d : string) : fs :=
  {| files := <[p := default "" (files w !! p) ++ d]> (files w);
     dirs := dirs w; read_only := read_only w |}.

Definition fs_unlink (w : fs) (p : string) : fs :=
  if is_read_only w (dirname p) then w
  else {| files := delete p (files w); dirs := dirs w; read_only := read_only w |}.

Definition fs_ifstream_read (w : fs) (p : string) : option string := files w !! p.

(** The instance: [net] answers the downloads, [shell] runs the command
    lines, [junk] is the value found in an unassigned [int]; storage is
    never exhausted and [new] returns an address not in use. *)
Definition libc (net : string -> curl_outcome) (shell : fs -> string -> fs * Z)
    (junk : Z) : Libc fs :=
  {| stat := fs_stat;
     mkdir := fs_mkdir;
     fopen_wb := fs_fopen_wb;
     fwrite_bytes := fs_fwrite_bytes;
     unlink := fs_unlink;
     ifstream_read := fs_ifstream_read;
     system := shell;
     curl := fun _ url => net url;
     malloc := fun _ _ => true;
     new_char := fun h _ => Some (fresh (dom h));
     uninit_int := junk |}.

Definition offline (url : string) : curl_outcome := curl_performed [] false.

(** A converter that cannot run: non-zero status, nothing written. *)
Definition no_converter (w : fs) (cmd : string) : fs * Z := (w, 127).

(** A shell whose converter fails: the file named after the last ">" of the
    command line is created empty by the redirection, then the command exits
    with status 1. *)
Definition failing_converter (w : fs) (cmd : string) : fs * Z :=
  match Str.rfind ">"%char cmd with
  | Some i =>
      match fs_fopen_wb w (Str.drop (S i) cmd) with
      | Some w' => (w', 1)
      | None => (w, 2)
      end
  | None => (w, 127)
  end.

Definition init (w : fs) (roots : list string) : State fs :=
  {| world := w; heap := ∅; paths_ := roots; memory_buffers_ := ∅; trace := [] |}.

End MemFS.

(** ** Concrete inputs *)

Definition app_exe : CodeModule :=
  {| code_file := "app.exe"; debug_file := ""; debug_identifier := "ABC123"; version := "" |}.

Definition app_sym : string := "/cache/app.pdb/ABC123/app.sym".
Definition app_pdb : string := "/cache/app.pdb/ABC123/app.pdb".

(** An empty cache directory. *)
Definition cache_only : MemFS.fs :=
  {| MemFS.files := ∅; MemFS.dirs := {["/"; "/cache"]}; MemFS.read_only := ∅ |}.

(** A cache that holds the symbol file of [app_exe]. *)
Definition cache_with (content : string) : MemFS.fs :=
  {| MemFS.files := {[app_sym := content]};
     MemFS.dirs := {["/"; "/cache"; "/cache/app.pdb"; "/cache/app.pdb/ABC123"]};
     MemFS.read_only := ∅ |}.

(** A root directory in which nothing may be created. *)
Definition read_only_root : MemFS.fs :=
  {| MemFS.files := ∅; MemFS.dirs := {["/"; "/ro"]}; MemFS.read_only := {["/ro"]} |}.

(** No network, no converter; an unassigned [int] reads as [junk]. *)
Definition offline_libc (junk : Z) : Libc MemFS.fs :=
  MemFS.libc MemFS.offline MemFS.no_converter junk.

Definition libz_sym : string := "/cache/libz.PDB/0A1B/libz.sym".

(** A cache that holds the symbol file of [lib_with_id]. *)
Definition cache_libz : MemFS.fs :=
  {| MemFS.files := {[libz_sym := "MODULE Linux x86 0A1B libz"]};
     MemFS.dirs := {["/"; "/cache"; "/cache/libz.PDB"; "/cache/libz.PDB/0A1B"]};
     MemFS.read_only := ∅ |}.

(** A symbol file with a 0xFF byte in it. *)
Definition sym_with_FF : string := "MODULE" ++ String Str.EOF_char "rest".

(** A module whose code file has a base name of three characters. *)
Definition exe_a : CodeModule :=
  {| code_file := "C:\bin\a.x"; debug_file := ""; debug_identifier := "ABC123"; version := "1.0" |}.

(** Modules with a debug file, with and without identifier and version. *)
Definition lib_with_id : CodeModule :=
  {| code_file := "/usr/lib/libz.so"; debug_file := "libz.PDB";
     debug_identifier := "0A1B"; version := "1.2" |}.

Definition lib_with_version : CodeModule :=
  {| code_file := "/usr/lib/libz.so"; debug_file := "libz.PDB";
     debug_identifier := ""; version := "1.2" |}.

Definition lib_bare : CodeModule :=
  {| code_file := "/usr/lib/libz.so"; debug_file := "libz.PDB";
     debug_identifier := ""; version := "" |}.

(** The state reached by a first request for the symbols of [app_exe] in a
    cache that holds them: array 1 is registered under "app.exe". *)
Definition app_requested_once : State MemFS.fs :=
  {| world := cache_with "MODULE x";
     heap := {[1%positive := "MODULE x" ++ String Str.NUL ""]};
     paths_ := ["/cache"];
     memory_buffers_ := {["app.exe" := 1%positive]};
     trace := [ev_stat app_sym; ev_stat app_sym; ev_ifstream app_sym] |}.

(** The same for [lib_with_id]. *)
Definition libz_requested_once : State MemFS.fs :=
  {| world := cache_libz;
     heap := {[1%positive := "MODULE Linux x86 0A1B libz" ++ String Str.NUL ""]};
     paths_ := ["/cache"];
     memory_buffers_ := {["/usr/lib/libz.so" := 1%positive]};
     trace := [ev_stat libz_sym; ev_stat libz_sym; ev_ifstream libz_sym] |}.

(** ** Notions used in the statements *)

(** Lower-casing of a whole string, as the source does with
    [std::transform] and [tolower]. *)
Definition lower (s : string) : string := Str.transform Str.tolower s.

(** Every run of [m] takes a state to one related to it by [R]. *)
Definition respects {W A : Type} (R : State W -> State W -> Prop) (m : M W A) : Prop :=
  forall st a st', m st = Some (a, st') -> R st st'.

(** The supplier's members and the heap are the same in two states. *)
Definition members_kept {W : Type} (st st' : State W) : Prop :=
  heap st' = heap st /\ memory_buffers_ st' = memory_buffers_ st /\ paths_ st' = paths_ st.

(** The second trace continues the first. *)
Definition trace_extends {W : Type} (st st' : State W) : Prop :=
  exists evs : list event, trace st' = (trace st ++ evs)%list.

(** Whether the character occurs in the string. *)
Fixpoint occurs (c : ascii) (s : string) : bool :=
  match s with
  | EmptyString => false
  | String d s' => (Ascii.eqb d c || occurs c s')%bool
  end.

(** The directories [mkpath] asks for in its loop: the parts of the path
    that end just before a slash or backslash, the first character of the
    path not being looked at; shortest first. *)
Fixpoint ancestors_from (done rest : string) : list string :=
  match rest with
  | EmptyString => []
  | String c rest' =>
      (if is_separator c then [done] else [])
        ++ ancestors_from (done ++ String c EmptyString) rest'
  end.

Definition ancestors (path : string) : list string :=
  ancestors_from (Str.take 1 path) (Str.drop 1 path).

(** [mkdir] on each directory in turn, each in the world the call before
    left, up to and including the first call that fails with ENOENT: the
    calls with their results, the world left, and whether ENOENT occurred. *)
Fixpoint make_dirs {W : Type} (libc : Libc W) (dirs : list string) (w : W)
  : list event * W * bool :=
  match dirs with
  | [] => ([], w, false)
  | d :: rest =>
      let '(w1, r) := mkdir libc w d in
      if is_ENOENT r then ([ev_mkdir d r], w1, true)
      else
        let '(evs, w2, missing) := make_dirs libc rest w1 in
        (ev_mkdir d r :: evs, w2, missing)
  end.

(** The state after operating system calls [evs] that left the world [w]. *)
Definition after_calls {W : Type} (evs : list event) (w : W) (st : State W) : State W :=
  {| world := w; heap := heap st; paths_ := paths_ st;
     memory_buffers_ := memory_buffers_ st; trace := trace st ++ evs |}.

(** Not a [mkdir] that failed with ENOENT. *)
Definition not_ENOENT (e : event) : Prop :=
  forall p : string, e <> ev_mkdir p (Some ENOENT).

(** [p] is the part of [path] before one of its separators. *)
Definition cut_at_separator (path p : string) : Prop :=
  exists (c : ascii) (rest : string), path = p ++ String c rest /\ is_separator c = true.

(** A [mkdir] on a part of [path] that ends before a separator. *)
Definition mkdir_of_prefix (path : string) (e : event) : Prop :=
  exists (p : string) (r : option errno), e = ev_mkdir p r /\ cut_at_separator path p.

(** The events a download leaves in the trace after the [mkdir] calls. *)
Definition after_mkpath (path path_pdb : string) (status : Z) : list event :=
  [ev_fopen (Str.c_str path_pdb); ev_system (Str.c_str (convert_cmd path path_pdb))]
  ++ (if status =? 0 then [ev_unlink (Str.c_str path_pdb)] else []).

(** A module with neither debug file nor usable code file name. *)
Definition nameless : CodeModule :=
  {| code_file := "a.x"; debug_file := ""; debug_identifier := "ABC123"; version := "" |}.

(** A module with a debug file whose extension is not ".pdb". *)
Definition lib_dbg : CodeModule :=
  {| code_file := "/usr/lib/libz.so"; debug_file := "/usr/lib/debug/libz.debug";
     debug_identifier := "0A1B"; version := "" |}.

(** The chunks of a body, one after the other. *)
Fixpoint join (chunks : list string) : string :=
  match chunks with
  | [] => ""
  | chunk :: rest => chunk ++ join rest
  end.

Definition is_download (e : event) : bool :=
  match e with ev_curl _ => true | _ => false end.

Definition is_conversion (e : event) : bool :=
  match e with ev_system _ => true | _ => false end.

(** A server that answers every URL with the same chunks. *)
Definition serving (chunks : list string) (url : string) : curl_outcome :=
  curl_performed chunks true.

(** * Properties *)

(** ** Strings *)

Lemma empty_iff (s : string) : Str.empty s = true <-> s = "".
Proof. destruct s; simpl; split; congruence. Qed.

Lemma empty_false_iff (s : string) : Str.empty s = false <-> s <> "".
Proof. destruct s; simpl; split; congruence. Qed.

Lemma length_app (s t : string) :
  String.length (s ++ t) = (String.length s + String.length t)%nat.
Proof. induction s as [|c s IH]; simpl; [reflexivity | now rewrite IH]. Qed.

Lemma take_app_length (s t : string) : Str.take (String.length s) (s ++ t) = s.
Proof. induction s as [|c s IH]; simpl; [now destruct t | now rewrite IH]. Qed.

Lemma drop_app_length (s t : string) : Str.drop (String.length s) (s ++ t) = t.
Proof. induction s as [|c s IH]; simpl; [reflexivity | exact IH]. Qed.

Lemma app_String (c : ascii) (s t : string) : String c s ++ t = String c (s ++ t).
Proof. reflexivity. Qed.

Lemma take_drop (n : nat) (s : string) : Str.take n s ++ Str.drop n s = s.
Proof.
  revert s; induction n as [|n IH]; intros [|c s]; simpl; try reflexivity.
  now rewrite app_String, IH.
Qed.

Lemma length_drop (n : nat) (s : string) :
  String.length (Str.drop n s) = (String.length s - n)%nat.
Proof.
  revert s; induction n as [|n IH]; intros [|c s]; simpl; try reflexivity.
  apply IH.
Qed.

Lemma substr_0 (n : nat) (s : string) : Str.substr 0 n s = Str.take n s.
Proof. reflexivity. Qed.

(** ** Path derivation *)

Lemma File_empty : PathnameStripper.File "" = "".
Proof. reflexivity. Qed.

Lemma debug_file_name_short (m : CodeModule) :
  debug_file m = "" ->
  (String.length (PathnameStripper.File (code_file m)) <= 3)%nat ->
  debug_file_name_of m = "".
Proof.
  intros Hd Hlen. unfold debug_file_name_of. rewrite Hd, File_empty. simpl.
  destruct (Nat.ltb_spec 3 (String.length (PathnameStripper.File (code_file m))));
    [lia | reflexivity].
Qed.

Lemma symbol_paths_shape (m : CodeModule) (root_path : string) :
  debug_file_name_of m <> "" ->
  symbol_paths m root_path =
    let d := debug_file_name_of m in
    let path := symbol_dir root_path d m ++ "/" ++ file_stem d in
    Some (path ++ ".sym", path ++ ".pdb").
Proof.
  intros Hd. unfold symbol_paths.
  apply empty_false_iff in Hd. now rewrite Hd.
Qed.

(** C1: for the module app.exe with identifier ABC123 and the root /cache,
    the debug file name is synthesised as app.pdb, the symbol path is
    /cache/app.pdb/ABC123/app.sym, the downloaded file is requested at the
    server's base URL followed by /app.pdb/ABC123/app.pdb, and a lookup in an
    empty cache asks for exactly that URL. *)
Theorem C1_app_exe_derivation :
  debug_file_name_of app_exe = "app.pdb"
  /\ symbol_paths app_exe "/cache"
     = Some ("/cache/app.pdb/ABC123/app.sym", "/cache/app.pdb/ABC123/app.pdb")
  /\ symbol_url "/cache" "/cache/app.pdb/ABC123/app.pdb"
     = symbol_server ++ "/app.pdb/ABC123/app.pdb"
  /\ (exists r st',
        GetSymbolFileAtPathFromRoot (offline_libc 0) (Some app_exe) "/cache"
          (MemFS.init cache_only ["/cache"]) = Some (r, st')
        /\ filter is_fetch_or_convert (trace st')
           = [ev_curl (symbol_server ++ "/app.pdb/ABC123/app.pdb");
              ev_system (convert_cmd "/cache/app.pdb/ABC123/app.sym"
                                     "/cache/app.pdb/ABC123/app.pdb")]).
Proof.
  split; [reflexivity|]. split; [reflexivity|]. split; [reflexivity|].
  eexists; eexists; split; [vm_compute; reflexivity | vm_compute; reflexivity].
Qed.

(** C7: with an empty debug_file and a code file base name of at most three
    characters, GetSymbolFileAtPathFromRoot returns NOT_FOUND with an empty
    symbol_file and leaves the state, trace included, as it was: nothing is
    downloaded or converted. *)
Theorem C7_short_code_file_not_found
    {W : Type} (libc : Libc W) (m : CodeModule) (root_path : string) (st : State W) :
  debug_file m = "" ->
  (String.length (PathnameStripper.File (code_file m)) <= 3)%nat ->
  GetSymbolFileAtPathFromRoot libc (Some m) root_path st = Some ((NOT_FOUND, ""), st).
Proof.
  intros Hd Hlen. unfold GetSymbolFileAtPathFromRoot, symbol_paths.
  now rewrite (debug_file_name_short m Hd Hlen).
Qed.

Lemma C7_witness :
  GetSymbolFileAtPathFromRoot (offline_libc 0) (Some exe_a) "/cache"
    (MemFS.init cache_only ["/cache"])
  = Some ((NOT_FOUND, ""), MemFS.init cache_only ["/cache"]).
Proof.
  apply (C7_short_code_file_not_found (offline_libc 0) exe_a "/cache").
  - reflexivity.
  - vm_compute. lia.
Defined.

Lemma app_assoc_s (s t u : string) : (s ++ t) ++ u = s ++ t ++ u.
Proof. induction s as [|c s IH]; [reflexivity | now rewrite !app_String, IH]. Qed.

(** C8: a debug file name that ends, in any letter case, in the four
    characters ".pdb" after a non-empty stem loses those four characters; a
    name of exactly four characters, ".pdb" itself included, and any name
    whose last four characters are not ".pdb" is kept unchanged. *)
Theorem C8_file_stem (name : string) :
  (forall stem ext : string,
      name = stem ++ ext -> String.length ext = 4%nat -> lower ext = ".pdb" ->
      stem <> "" -> file_stem name = stem)
  /\ (String.length name = 4%nat -> file_stem name = name)
  /\ ((forall stem ext : string,
          name = stem ++ ext -> String.length ext = 4%nat -> lower ext <> ".pdb") ->
      file_stem name = name).
Proof.
  split; [|split].
  - intros stem ext -> Hlen Hlow Hstem. unfold file_stem.
    rewrite length_app, Hlen.
    assert (0 < String.length stem)%nat as Hpos
      by (destruct stem; [congruence | simpl; lia]).
    replace (Nat.ltb 4 (String.length stem + 4)) with true
      by (symmetry; apply Nat.ltb_lt; lia).
    rewrite Nat.add_sub, drop_app_length.
    unfold lower in Hlow. rewrite Hlow. simpl.
    rewrite substr_0. apply take_app_length.
  - intros Hlen. unfold file_stem. now rewrite Hlen.
  - intros Hno. unfold file_stem.
    destruct (Nat.ltb_spec 4 (String.length name)) as [Hlt|Hge]; [|reflexivity].
    destruct (String.eqb_spec
                (Str.transform Str.tolower
                   (Str.drop (String.length name - 4) name)) ".pdb") as [Heq|Hne];
      [|reflexivity].
    exfalso.
    apply (Hno (Str.take (String.length name - 4) name)
               (Str.drop (String.length name - 4) name)).
    + symmetry. apply take_drop.
    + rewrite length_drop. lia.
    + exact Heq.
Qed.

Lemma C8_witness :
  file_stem "libz.PDB" = "libz" /\ file_stem ".pdb" = ".pdb" /\ file_stem "libz.so" = "libz.so".
Proof.
  split; [|split].
  - apply (proj1 (C8_file_stem "libz.PDB") "libz" ".PDB"); try reflexivity.
    discriminate.
  - apply (proj1 (proj2 (C8_file_stem ".pdb"))). reflexivity.
  - reflexivity.
Defined.

(** C9: the directory of the derived paths is root/debug-file-name followed
    by the debug identifier when that is not empty, otherwise by the version
    when that is not empty, otherwise by nothing; the stem with its extension
    comes directly beneath it. *)
Theorem C9_identifier_or_version (m : CodeModule) (root_path : string) :
  debug_file_name_of m <> "" ->
  exists dir : string,
    symbol_paths m root_path
    = Some (dir ++ "/" ++ file_stem (debug_file_name_of m) ++ ".sym",
            dir ++ "/" ++ file_stem (debug_file_name_of m) ++ ".pdb")
    /\ (debug_identifier m <> "" ->
        dir = root_path ++ "/" ++ debug_file_name_of m ++ "/" ++ debug_identifier m)
    /\ (debug_identifier m = "" -> version m <> "" ->
        dir = root_path ++ "/" ++ debug_file_name_of m ++ "/" ++ version m)
    /\ (debug_identifier m = "" -> version m = "" ->
        dir = root_path ++ "/" ++ debug_file_name_of m).
Proof.
  intros Hd. exists (symbol_dir root_path (debug_file_name_of m) m).
  split.
  - rewrite (symbol_paths_shape m root_path Hd). cbv zeta.
    now rewrite !app_assoc_s.
  - unfold symbol_dir.
    destruct (debug_identifier m) as [|c i] eqn:Hi;
      destruct (version m) as [|c' v] eqn:Hv; simpl;
      repeat split; intros; try congruence; now rewrite !app_assoc_s.
Qed.

Lemma C9_witness :
  symbol_paths lib_with_id "/cache"
    = Some ("/cache/libz.PDB/0A1B/libz.sym", "/cache/libz.PDB/0A1B/libz.pdb")
  /\ symbol_paths lib_with_version "/cache"
    = Some ("/cache/libz.PDB/1.2/libz.sym", "/cache/libz.PDB/1.2/libz.pdb")
  /\ symbol_paths lib_bare "/cache"
    = Some ("/cache/libz.PDB/libz.sym", "/cache/libz.PDB/libz.pdb").
Proof.
  split; [|split].
  - destruct (C9_identifier_or_version lib_with_id "/cache") as (dir & Hp & Hid & _ & _);
      [discriminate|].
    rewrite Hp, Hid; [reflexivity | discriminate].
  - destruct (C9_identifier_or_version lib_with_version "/cache") as (dir & Hp & _ & Hv & _);
      [discriminate|].
    rewrite Hp, Hv; [reflexivity | reflexivity | discriminate].
  - destruct (C9_identifier_or_version lib_bare "/cache") as (dir & Hp & _ & _ & Hn);
      [discriminate|].
    rewrite Hp, Hn; reflexivity.
Defined.

(** C10: FreeSymbolData on a null module returns at once: the registry, the
    heap and the trace (no registry lookup is recorded) are as before. *)
Theorem C10_free_null_module {W : Type} (st : State W) :
  FreeSymbolData None st = Some (tt, st).
Proof. reflexivity. Qed.

(** C3: when the symbol file derived for the first root exists, GetSymbolFile
    returns FOUND with that path; the world is unchanged and the only
    operations performed are the two existence checks, so nothing is
    downloaded and no converter is run. *)
Theorem C3_present_at_first_root
    {W : Type} (libc : Libc W) (m : CodeModule) (root_path : string)
    (rest : list string) (path path_pdb : string) (st : State W) :
  paths_ st = root_path :: rest ->
  symbol_paths m root_path = Some (path, path_pdb) ->
  stat libc (world st) (Str.c_str path) = true ->
  exists st' : State W,
    GetSymbolFile libc (Some m) st = Some ((FOUND, path), st')
    /\ world st' = world st
    /\ trace st' = (trace st ++ [ev_stat (Str.c_str path); ev_stat (Str.c_str path)])%list
    /\ filter is_fetch_or_convert (trace st') = filter is_fetch_or_convert (trace st).
Proof.
  intros Hpaths Hsym Hstat.
  exists (record (ev_stat (Str.c_str path)) (record (ev_stat (Str.c_str path)) st)).
  repeat split.
  - unfold GetSymbolFile. rewrite Hpaths. simpl.
    unfold GetSymbolFileAtPathFromRoot. rewrite Hsym.
    unfold bind, file_exists. rewrite Hstat. simpl. rewrite Hstat. reflexivity.
  - simpl. now rewrite <- app_assoc.
  - simpl. rewrite !filter_app. simpl. now rewrite !app_nil_r.
Qed.

Lemma C3_witness :
  exists st' : State MemFS.fs,
    GetSymbolFile (offline_libc 0) (Some app_exe)
      (MemFS.init (cache_with "MODULE x") ["/cache"; "/other"])
    = Some ((FOUND, app_sym), st')
    /\ world st' = cache_with "MODULE x"
    /\ trace st' = [ev_stat app_sym; ev_stat app_sym]
    /\ filter is_fetch_or_convert (trace st') = [].
Proof.
  apply (C3_present_at_first_root (offline_libc 0) app_exe "/cache" ["/other"]
           app_sym app_pdb (MemFS.init (cache_with "MODULE x") ["/cache"; "/other"])).
  - reflexivity.
  - reflexivity.
  - vm_compute. reflexivity.
Defined.

(** ** What the steps of a lookup leave alone *)

Section Frame.

Context {W : Type} (libc : Libc W).

(** A relation between states that holds across every step that changes
    only the world or the trace. *)
Variable R : State W -> State W -> Prop.
Hypothesis R_refl : forall st, R st st.
Hypothesis R_trans : forall st1 st2 st3, R st1 st2 -> R st2 st3 -> R st1 st3.
Hypothesis R_record : forall e st, R st (record e st).
Hypothesis R_set_world : forall w st, R st (set_world w st).

Lemma keeps_ret {A} (a : A) : respects R (ret a).
Proof. intros st b st' H. inversion H; subst. apply R_refl. Qed.

Lemma keeps_bind {A B} (m : M W A) (k : A -> M W B) :
  respects R m -> (forall a, respects R (k a)) -> respects R (bind m k).
Proof.
  intros Hm Hk st b st' H. unfold bind in H.
  destruct (m st) as [[a st1]|] eqn:E; [|discriminate].
  eapply R_trans; [eapply Hm | eapply Hk]; eassumption.
Qed.

Local Ltac step_R :=
  first [ apply R_refl | apply R_record | apply R_set_world
        | eapply R_trans; [apply R_set_world | apply R_record] ].

Local Tactic Notation "keeps_prim" reference(f) :=
  let H := fresh "H" in
  intros ? ? ? H; unfold f in H;
  repeat case_match; simplify_eq; step_R.

Lemma keeps_file_exists p : respects R (file_exists libc p).
Proof. keeps_prim file_exists. Qed.

Lemma keeps_buffer_write_cb c b : respects R (buffer_write_cb libc c b).
Proof. keeps_prim buffer_write_cb. Qed.

Lemma keeps_deliver chunks : forall b, respects R (deliver libc chunks b).
Proof.
  induction chunks as [|c chunks IH]; intros b; simpl.
  - apply keeps_ret.
  - apply keeps_bind; [apply keeps_buffer_write_cb | intros; apply IH].
Qed.

Lemma keeps_load_url url : respects R (load_url libc url).
Proof.
  intros st a st' H. unfold load_url in H.
  destruct (curl libc _ url) as [|chunks ok]; [simplify_eq; apply R_record|].
  destruct (deliver libc chunks _ _) as [[b st1]|] eqn:E; [|discriminate].
  apply keeps_deliver in E.
  eapply R_trans; [apply R_record|].
  destruct ok; simplify_eq; exact E.
Qed.

Lemma keeps_do_mkdir p : respects R (do_mkdir libc p).
Proof. keeps_prim do_mkdir. Qed.

Lemma keeps_mkpath_loop rest : forall done, respects R (mkpath_loop libc done rest).
Proof.
  induction rest as [|c rest IH]; intros done; simpl.
  - apply keeps_ret.
  - destruct (is_separator c); [|apply IH].
    apply keeps_bind; [apply keeps_do_mkdir|].
    intros r. destruct (is_ENOENT r); [apply keeps_ret | apply IH].
Qed.

Lemma keeps_mkpath path : respects R (mkpath libc path).
Proof.
  unfold mkpath. destruct (Nat.leb _ 0); [apply keeps_ret|].
  intros st a st' H.
  destruct (negb _); [simplify_eq; apply R_refl|].
  destruct (decide _).
  - revert H. apply keeps_bind; [apply keeps_do_mkdir|].
    intros [err|]; [apply keeps_mkpath_loop | apply keeps_ret].
  - revert H. apply keeps_mkpath_loop.
Qed.

Lemma keeps_do_fopen_wb p : respects R (do_fopen_wb libc p).
Proof. keeps_prim do_fopen_wb. Qed.

Lemma keeps_do_fwrite data n p : respects R (do_fwrite libc data n p).
Proof. keeps_prim do_fwrite. Qed.

Lemma keeps_do_system cmd : respects R (do_system libc cmd).
Proof. keeps_prim do_system. Qed.

Lemma keeps_do_unlink p : respects R (do_unlink libc p).
Proof. keeps_prim do_unlink. Qed.

Lemma keeps_do_ifstream p : respects R (do_ifstream libc p).
Proof. keeps_prim do_ifstream. Qed.

Lemma keeps_download_and_convert root_path path path_pdb :
  respects R (download_and_convert libc root_path path path_pdb).
Proof.
  unfold download_and_convert.
  apply keeps_bind; [apply keeps_load_url | intros loaded].
  apply keeps_bind; [apply keeps_mkpath | intros _].
  apply keeps_bind; [apply keeps_do_fopen_wb | intros f].
  apply keeps_bind; [destruct f; [apply keeps_do_fwrite | apply keeps_ret] | intros _].
  apply keeps_bind; [apply keeps_do_system | intros status].
  destruct (status =? 0); [apply keeps_do_unlink | apply keeps_ret].
Qed.

Lemma keeps_GetSymbolFileAtPathFromRoot module root_path :
  respects R (GetSymbolFileAtPathFromRoot libc module root_path).
Proof.
  unfold GetSymbolFileAtPathFromRoot.
  destruct module as [m|]; [|apply keeps_ret].
  destruct (symbol_paths m root_path) as [[path path_pdb]|]; [|apply keeps_ret].
  apply keeps_bind; [apply keeps_file_exists | intros present].
  apply keeps_bind;
    [destruct (negb present); [apply keeps_download_and_convert | apply keeps_ret]
    | intros _].
  apply keeps_bind; [apply keeps_file_exists | intros present'].
  destruct (negb present'); apply keeps_ret.
Qed.

Lemma keeps_GetSymbolFile_from module paths :
  respects R (GetSymbolFile_from libc module paths).
Proof.
  induction paths as [|root_path rest IH]; simpl.
  - apply keeps_ret.
  - apply keeps_bind; [apply keeps_GetSymbolFileAtPathFromRoot | intros r].
    destruct (negb _); [apply keeps_ret | apply IH].
Qed.

Lemma keeps_GetSymbolFile module : respects R (GetSymbolFile libc module).
Proof. intros st a st' H. eapply keeps_GetSymbolFile_from. exact H. Qed.

Lemma keeps_GetSymbolFileData module : respects R (GetSymbolFileData libc module).
Proof.
  unfold GetSymbolFileData.
  apply keeps_bind; [apply keeps_GetSymbolFile | intros r].
  destruct (SymbolResult_eqb _ _); [|apply keeps_ret].
  apply keeps_bind; [apply keeps_do_ifstream | intros [c|]; apply keeps_ret].
Qed.

End Frame.

Lemma members_kept_refl {W : Type} (st : State W) : members_kept st st.
Proof. repeat split. Qed.

Lemma members_kept_trans {W : Type} (st1 st2 st3 : State W) :
  members_kept st1 st2 -> members_kept st2 st3 -> members_kept st1 st3.
Proof. unfold members_kept. intros (?&?&?) (?&?&?). repeat split; congruence. Qed.

Lemma trace_extends_refl {W : Type} (st : State W) : trace_extends st st.
Proof. exists []. now rewrite app_nil_r. Qed.

Lemma trace_extends_trans {W : Type} (st1 st2 st3 : State W) :
  trace_extends st1 st2 -> trace_extends st2 st3 -> trace_extends st1 st3.
Proof.
  intros [e1 H1] [e2 H2]. exists (e1 ++ e2)%list. now rewrite H2, H1, <- app_assoc.
Qed.

Lemma trace_extends_In {W : Type} (st st' : State W) (e : event) :
  trace_extends st st' -> In e (trace st) -> In e (trace st').
Proof. intros [evs ->] H. apply in_or_app. now left. Qed.

(** The lookup with data leaves the heap and the supplier's members alone. *)
Lemma GetSymbolFileData_members {W : Type} (libc : Libc W) (module : option CodeModule) :
  respects members_kept (GetSymbolFileData libc module).
Proof.
  apply keeps_GetSymbolFileData.
  - apply members_kept_refl.
  - apply members_kept_trans.
  - intros e st. repeat split.
  - intros w st. repeat split.
Qed.

(** ** The buffers of GetCStringSymbolData *)

Lemma getline_id (delim : ascii) (s : string) :
  occurs delim s = false -> Str.getline s delim = s.
Proof.
  induction s as [|c s IH]; simpl; [reflexivity|].
  intros H. apply orb_false_iff in H as [Hc Hs].
  rewrite Hc. now rewrite IH.
Qed.

Lemma map_insert_absent (key : string) (p : positive) (b : gmap string positive) :
  b !! key = None -> map_insert key p b !! key = Some p.
Proof. intros H. unfold map_insert. rewrite H. apply lookup_insert_eq. Qed.

Lemma map_insert_present (key : string) (p q : positive) (b : gmap string positive) :
  b !! key = Some q -> map_insert key p b = b.
Proof. intros H. unfold map_insert. now rewrite H. Qed.

Lemma map_insert_other (key key' : string) (p : positive) (b : gmap string positive) :
  key' <> key -> map_insert key p b !! key' = b !! key'.
Proof.
  intros H. unfold map_insert. destruct (b !! key); [reflexivity|].
  now apply lookup_insert_ne.
Qed.

Section Buffers.

Context {W : Type} (libc : Libc W).

(** A FOUND result of the four-argument GetSymbolFile: the lookup found
    the file, and the data is what the stream yields before a 0xFF. *)
Lemma GetSymbolFileData_found module st file data st1 :
  GetSymbolFileData libc module st = Some ((FOUND, file, data), st1) ->
  exists st0,
    GetSymbolFile libc module st = Some ((FOUND, file), st0)
    /\ st1 = record (ev_ifstream (Str.c_str file)) st0
    /\ data = match ifstream_read libc (world st0) (Str.c_str file) with
              | Some c => Str.getline c Str.EOF_char
              | None => ""
              end.
Proof.
  unfold GetSymbolFileData, bind. intros H.
  destruct (GetSymbolFile libc module st) as [[[s f] st0]|]; [|discriminate].
  simpl in H. destruct s; simpl in H; try (inversion H; fail).
  unfold do_ifstream in H.
  destruct (ifstream_read libc (world st0) (Str.c_str f)) as [c|] eqn:E;
    inversion H; subst; exists st0; rewrite ?E; auto.
Qed.

(** A successful GetCStringSymbolData, taken apart. *)
Lemma GetCStringSymbolData_found m st file p n st' :
  GetCStringSymbolData libc (Some m) st = Some ((FOUND, file, Some (Some p, n)), st') ->
  exists data st1,
    GetSymbolFileData libc (Some m) st = Some ((FOUND, file, data), st1)
    /\ n = (String.length data + 1)%nat
    /\ new_char libc (heap st1) n = Some p
    /\ world st' = world st1
    /\ heap st' = <[p := data ++ String Str.NUL ""]> (heap st1)
    /\ memory_buffers_ st' = map_insert (code_file m) p (memory_buffers_ st1).
Proof.
  unfold GetCStringSymbolData, bind. intros H.
  destruct (GetSymbolFileData libc (Some m) st) as [[[[s f] d] st1]|]; [|discriminate].
  simpl in H. destruct s; simpl in H; try (inversion H; fail).
  destruct (new_char libc (heap st1) (String.length d + 1)) as [q|] eqn:E;
    inversion H; subst.
  exists d, st1. repeat split; auto.
Qed.

Lemma GetCStringSymbolData_registry m st file p n st' :
  GetCStringSymbolData libc (Some m) st = Some ((FOUND, file, Some (Some p, n)), st') ->
  memory_buffers_ st' = map_insert (code_file m) p (memory_buffers_ st).
Proof.
  intros H. apply GetCStringSymbolData_found in H as (d & st1 & Hd & _ & _ & _ & _ & Hb).
  apply GetSymbolFileData_members in Hd as (_ & Hm & _). now rewrite Hb, Hm.
Qed.

(** With an entry already there the registry is left as it was, so that the
    array just returned is registered only if it is the one already stored. *)
Lemma GetCStringSymbolData_registered_before m st file p q n st' :
  memory_buffers_ st !! code_file m = Some q ->
  GetCStringSymbolData libc (Some m) st = Some ((FOUND, file, Some (Some p, n)), st') ->
  memory_buffers_ st' = memory_buffers_ st
  /\ (memory_buffers_ st' !! code_file m = Some p <-> p = q).
Proof.
  intros Hq H. rewrite (GetCStringSymbolData_registry _ _ _ _ _ _ H).
  rewrite (map_insert_present _ _ _ _ Hq). split; [reflexivity|].
  rewrite Hq. split; congruence.
Qed.

(** C4: after a successful GetCStringSymbolData for a module whose
    code file has no entry in the registry, the entry for that code file is
    the buffer just returned, and the other entries are as before. *)
Theorem C4_registry_entry_when_absent
    (m : CodeModule) (st : State W) (file : string) (p : positive) (n : nat)
    (st' : State W) :
  memory_buffers_ st !! code_file m = None ->
  GetCStringSymbolData libc (Some m) st = Some ((FOUND, file, Some (Some p, n)), st') ->
  memory_buffers_ st' !! code_file m = Some p
  /\ forall key : string,
       key <> code_file m -> memory_buffers_ st' !! key = memory_buffers_ st !! key.
Proof.
  intros Habs H. rewrite (GetCStringSymbolData_registry _ _ _ _ _ _ H). split.
  - now apply map_insert_absent.
  - intros key Hkey. now apply map_insert_other.
Qed.

(** C6: on a FOUND result whose symbol file reads as contents free of 0xFF
    bytes, the array returned holds those contents followed by a NUL and the
    reported size is their length plus one; the array is registered under the
    code file when that key has no entry in the registry before the call. *)
Theorem C6_c_string_data
    (m : CodeModule) (st : State W) (file : string) (p : positive) (n : nat)
    (st' : State W) (content : string) :
  GetCStringSymbolData libc (Some m) st = Some ((FOUND, file, Some (Some p, n)), st') ->
  ifstream_read libc (world st') (Str.c_str file) = Some content ->
  occurs Str.EOF_char content = false ->
  heap st' !! p = Some (content ++ String Str.NUL "")
  /\ n = (String.length content + 1)%nat
  /\ (memory_buffers_ st !! code_file m = None ->
      memory_buffers_ st' !! code_file m = Some p).
Proof.
  intros H Hread Hff.
  pose proof (GetCStringSymbolData_registry _ _ _ _ _ _ H) as Hreg.
  apply GetCStringSymbolData_found in H
    as (d & st1 & Hd & Hn & _ & Hw & Hh & _).
  apply GetSymbolFileData_found in Hd as (st0 & _ & Hst1 & Hdata).
  assert (world st1 = world st0) as Hw0 by (now subst st1).
  rewrite Hw, Hw0 in Hread. rewrite Hread, (getline_id _ _ Hff) in Hdata.
  subst d. split; [|split].
  - rewrite Hh. apply lookup_insert_eq.
  - exact Hn.
  - intros Habs. rewrite Hreg. now apply map_insert_absent.
Qed.

(** When [new] throws after the file was found and read, the call returns
    nothing: in particular it does not return INTERRUPT. *)
Lemma GetCStringSymbolData_bad_alloc
    (m : CodeModule) (st : State W) (file data : string) (st1 : State W) :
  GetSymbolFileData libc (Some m) st = Some ((FOUND, file, data), st1) ->
  new_char libc (heap st1) (String.length data + 1) = None ->
  GetCStringSymbolData libc (Some m) st = None.
Proof.
  intros Hd Hnew. unfold GetCStringSymbolData, bind. rewrite Hd. simpl. now rewrite Hnew.
Qed.

End Buffers.

Lemma C4_witness :
  exists st' : State MemFS.fs,
    GetCStringSymbolData (offline_libc 0) (Some app_exe)
      (MemFS.init (cache_with "MODULE x") ["/cache"])
    = Some ((FOUND, app_sym, Some (Some 1%positive, 9%nat)), st')
    /\ memory_buffers_ st' !! "app.exe" = Some 1%positive.
Proof.
  eexists. split; [vm_compute; reflexivity|].
  refine (proj1 (C4_registry_entry_when_absent (offline_libc 0) app_exe
                   (MemFS.init (cache_with "MODULE x") ["/cache"])
                   app_sym 1%positive 9%nat _ _ _)).
  - reflexivity.
  - vm_compute. reflexivity.
Defined.

(** A second request for the same module, made before the first buffer is
    freed, returns the new array 2 while the registry keeps array 1. *)
Lemma C4_second_buffer_not_registered :
  GetCStringSymbolData (offline_libc 0) (Some app_exe)
    (MemFS.init (cache_with "MODULE x") ["/cache"])
  = Some ((FOUND, app_sym, Some (Some 1%positive, 9%nat)), app_requested_once)
  /\ exists st2 : State MemFS.fs,
       GetCStringSymbolData (offline_libc 0) (Some app_exe) app_requested_once
       = Some ((FOUND, app_sym, Some (Some 2%positive, 9%nat)), st2)
       /\ memory_buffers_ st2 !! code_file app_exe = Some 1%positive
       /\ memory_buffers_ st2 !! code_file app_exe <> Some 2%positive.
Proof.
  split; [vm_compute; reflexivity|].
  eexists. split; [vm_compute; reflexivity|].
  split; [vm_compute; reflexivity | vm_compute; discriminate].
Qed.

Lemma C6_witness :
  exists st' : State MemFS.fs,
    GetCStringSymbolData (offline_libc 0) (Some app_exe)
      (MemFS.init (cache_with "MODULE x") ["/cache"])
    = Some ((FOUND, app_sym, Some (Some 1%positive, 9%nat)), st')
    /\ heap st' !! 1%positive = Some ("MODULE x" ++ String Str.NUL "")
    /\ 9%nat = (String.length "MODULE x" + 1)%nat
    /\ memory_buffers_ st' !! "app.exe" = Some 1%positive.
Proof.
  eexists. split; [vm_compute; reflexivity|].
  destruct (C6_c_string_data (offline_libc 0) app_exe
              (MemFS.init (cache_with "MODULE x") ["/cache"])
              app_sym 1%positive 9%nat _ "MODULE x"
              ltac:(vm_compute; reflexivity)) as (Hh & Hn & Hr).
  - vm_compute. reflexivity.
  - reflexivity.
  - split; [exact Hh|]. split; [exact Hn|]. apply Hr. reflexivity.
Defined.

(** A request for a module that still has a buffer registered: the array
    returned holds the contents and has the right size, but it is not the
    one the registry holds under the code file. *)
Lemma C6_returned_buffer_not_registered :
  memory_buffers_ libz_requested_once !! code_file lib_with_id = Some 1%positive
  /\ exists st2 : State MemFS.fs,
       GetCStringSymbolData (offline_libc 0) (Some lib_with_id) libz_requested_once
       = Some ((FOUND, libz_sym, Some (Some 2%positive, 27%nat)), st2)
       /\ heap st2 !! 2%positive = Some ("MODULE Linux x86 0A1B libz" ++ String Str.NUL "")
       /\ memory_buffers_ st2 = {[code_file lib_with_id := 1%positive]}
       /\ memory_buffers_ st2 !! code_file lib_with_id <> Some 2%positive.
Proof.
  split; [vm_compute; reflexivity|].
  eexists. split; [vm_compute; reflexivity|].
  split; [vm_compute; reflexivity|].
  split; [vm_compute; reflexivity | vm_compute; discriminate].
Qed.

(** [libz_requested_once] is the state a first request leaves. *)
Lemma libz_first_request :
  GetCStringSymbolData (offline_libc 0) (Some lib_with_id) (MemFS.init cache_libz ["/cache"])
  = Some ((FOUND, libz_sym, Some (Some 1%positive, 27%nat)), libz_requested_once).
Proof. vm_compute. reflexivity. Qed.

(** A symbol file with a 0xFF byte: the array holds only the bytes before
    it, and the size reported is 7 where the file has 11 bytes. *)
Lemma contents_cut_at_FF :
  exists (st' : State MemFS.fs) (p : positive) (n : nat),
    GetCStringSymbolData (offline_libc 0) (Some app_exe)
      (MemFS.init (cache_with sym_with_FF) ["/cache"])
    = Some ((FOUND, app_sym, Some (Some p, n)), st')
    /\ ifstream_read (offline_libc 0) (world st') app_sym = Some sym_with_FF
    /\ heap st' !! p = Some ("MODULE" ++ String Str.NUL "")
    /\ n = 7%nat
    /\ String.length sym_with_FF = 11%nat.
Proof.
  eexists _, _, _.
  split; [vm_compute; reflexivity|].
  split; [vm_compute; reflexivity|].
  split; [vm_compute; reflexivity|].
  split; reflexivity.
Qed.

(** ** mkpath *)

Lemma is_ENOENT_true (r : option errno) : is_ENOENT r = true -> r = Some ENOENT.
Proof. destruct r as [[]|]; simpl; congruence. Qed.

Lemma not_ENOENT_last (pre : list event) (p : string) :
  ~ Forall not_ENOENT (pre ++ [ev_mkdir p (Some ENOENT)]).
Proof.
  intros H. apply Forall_app in H as [_ H].
  inversion H as [|e l He _]; subst. now apply (He p).
Qed.

Section Mkpath.

Context {W : Type} (libc : Libc W).

(** The loop always returns; it returns 0 only straight after a [mkdir]
    that failed with ENOENT. *)
Lemma mkpath_loop_outcome (rest : string) :
  forall (done : string) (st : State W),
  exists (r : Z) (st' : State W) (evs : list event),
    mkpath_loop libc done rest st = Some (r, st')
    /\ trace st' = (trace st ++ evs)%list
    /\ (r = 1 \/
        r = 0 /\ exists pre p, evs = (pre ++ [ev_mkdir p (Some ENOENT)])%list).
Proof.
  induction rest as [|c rest IH]; intros done st; simpl.
  - exists 1, st, []. rewrite app_nil_r. auto.
  - destruct (is_separator c); [|apply IH].
    unfold bind, do_mkdir.
    destruct (mkdir libc (world st) done) as [w r].
    destruct (is_ENOENT r) eqn:E.
    + apply is_ENOENT_true in E. subst r.
      eexists 0, _, [_]. split; [reflexivity|]. split; [reflexivity|].
      right. split; [reflexivity|]. now exists [], done.
    + destruct (IH (done ++ String c "")
                   (record (ev_mkdir done r) (set_world w st)))
        as (res & st' & evs & Hrun & Htr & Hout).
      exists res, st', (ev_mkdir done r :: evs).
      split; [exact Hrun|]. split.
      * rewrite Htr. simpl. now rewrite <- app_assoc.
      * destruct Hout as [?|(? & pre & p & ->)]; [now left | right].
        split; [assumption|]. now exists (ev_mkdir done r :: pre), p.
Qed.

Lemma mkpath_outcome (path : string) (st : State W) :
  exists (r : Z) (st' : State W) (evs : list event),
    mkpath libc path st = Some (r, st')
    /\ trace st' = (trace st ++ evs)%list
    /\ (r = 1 \/
        r = 0 /\ (path = ""
                  \/ malloc libc (world st) (String.length path + 1) = false
                  \/ exists pre p, evs = (pre ++ [ev_mkdir p (Some ENOENT)])%list)).
Proof.
  unfold mkpath. destruct path as [|c path].
  - exists 0, st, []. rewrite app_nil_r. simpl.
    split; [reflexivity|]. split; [reflexivity|]. right. split; [reflexivity|]. now left.
  - set (full := String c path).
    replace (Nat.leb (String.length full) 0) with false by reflexivity.
    destruct (malloc libc (world st) (String.length full + 1)) eqn:Em; simpl.
    2:{ exists 0, st, []. rewrite app_nil_r.
        split; [reflexivity|]. split; [reflexivity|]. right. split; [reflexivity|].
        right. now left. }
    destruct (decide (last_char full = Some "/"%char)) as [Hl|Hl].
    + unfold bind, do_mkdir.
      destruct (mkdir libc (world st) _) as [w r] eqn:Ed.
      destruct r as [err|].
      * destruct (mkpath_loop_outcome (Str.drop 1 full) (Str.take 1 full)
                    (record (ev_mkdir (Str.take (String.length full - 1) full) (Some err))
                       (set_world w st)))
          as (res & st' & evs & Hrun & Htr & Hout).
        exists res, st', (ev_mkdir (Str.take (String.length full - 1) full) (Some err) :: evs).
        split; [exact Hrun|]. split.
        -- rewrite Htr. simpl. now rewrite <- app_assoc.
        -- destruct Hout as [?|(? & pre & p & ->)]; [now left | right].
           split; [assumption|]. right; right.
           now exists (ev_mkdir (Str.take (String.length full - 1) full) (Some err) :: pre), p.
      * eexists 1, _, [_]. split; [reflexivity|]. split; [reflexivity|]. now left.
    + destruct (mkpath_loop_outcome (Str.drop 1 full) (Str.take 1 full) st)
        as (res & st' & evs & Hrun & Htr & Hout).
      exists res, st', evs. split; [exact Hrun|]. split; [exact Htr|].
      destruct Hout as [?|(? & Hev)]; [now left | right]. auto.
Qed.

Lemma is_ENOENT_false (d : string) (r : option errno) :
  is_ENOENT r = false -> not_ENOENT (ev_mkdir d r).
Proof. intros H p [= _ ->]. discriminate. Qed.

(** What [make_dirs] reports: ENOENT occurred exactly when the last call
    failed with it, and then no call before did. *)
Lemma make_dirs_missing (dirs : list string) :
  forall (w : W) (evs : list event) (w' : W) (missing : bool),
    make_dirs libc dirs w = (evs, w', missing) ->
    (missing = true -> exists pre p, evs = (pre ++ [ev_mkdir p (Some ENOENT)])%list)
    /\ (missing = false -> Forall not_ENOENT evs).
Proof.
  induction dirs as [|d rest IH]; intros w evs w' missing H; simpl in H.
  - inversion H; subst. split; [discriminate | constructor].
  - destruct (mkdir libc w d) as [w1 r].
    destruct (is_ENOENT r) eqn:E.
    + apply is_ENOENT_true in E. subst r. inversion H; subst.
      split; [intros _; now exists [], d | discriminate].
    + destruct (make_dirs libc rest w1) as [[evs2 w2] m2] eqn:E2.
      inversion H; subst. apply IH in E2 as [Ht Hf]. split.
      * intros Hm. destruct (Ht Hm) as (pre & p & ->).
        now exists (ev_mkdir d r :: pre), p.
      * intros Hm. constructor; [now apply is_ENOENT_false | now apply Hf].
Qed.

Lemma make_dirs_missing_iff (dirs : list string) (w : W) evs w' missing :
  make_dirs libc dirs w = (evs, w', missing) ->
  (missing = true <-> exists pre p, evs = (pre ++ [ev_mkdir p (Some ENOENT)])%list).
Proof.
  intros H. apply make_dirs_missing in H as [Ht Hf]. split; [exact Ht|].
  intros (pre & p & ->). destruct missing; [reflexivity|].
  exfalso. now apply (not_ENOENT_last pre p), Hf.
Qed.

Lemma after_calls_nil (st : State W) : after_calls [] (world st) st = st.
Proof. destruct st. unfold after_calls. simpl. now rewrite app_nil_r. Qed.

Lemma after_calls_cons (e : event) (evs : list event) (w1 w2 : W) (st : State W) :
  after_calls evs w2 (record e (set_world w1 st)) = after_calls (e :: evs) w2 st.
Proof. unfold after_calls. simpl. now rewrite <- app_assoc. Qed.

(** The loop is [make_dirs] over the directories before the separators. *)
Lemma mkpath_loop_make_dirs (rest : string) :
  forall (done : string) (st : State W),
  exists (evs : list event) (w' : W) (missing : bool),
    make_dirs libc (ancestors_from done rest) (world st) = (evs, w', missing)
    /\ mkpath_loop libc done rest st
       = Some (if missing then 0 else 1, after_calls evs w' st).
Proof.
  induction rest as [|c rest IH]; intros done st; simpl.
  - exists [], (world st), false. now rewrite after_calls_nil.
  - destruct (is_separator c); simpl; [|apply IH].
    unfold bind, do_mkdir.
    destruct (mkdir libc (world st) done) as [w1 r].
    destruct (is_ENOENT r) eqn:E.
    + now exists [ev_mkdir done r], w1, true.
    + destruct (IH (done ++ String c "") (record (ev_mkdir done r) (set_world w1 st)))
        as (evs & w' & missing & Hmk & Hloop).
      simpl world in Hmk. rewrite Hmk.
      exists (ev_mkdir done r :: evs), w', missing.
      split; [reflexivity|]. now rewrite Hloop, after_calls_cons.
Qed.

Lemma mkpath_no_slash (path : string) (st : State W) :
  path <> "" ->
  malloc libc (world st) (String.length path + 1) = true ->
  last_char path <> Some "/"%char ->
  mkpath libc path st = mkpath_loop libc (Str.take 1 path) (Str.drop 1 path) st.
Proof.
  intros Hne Hm Hl. unfold mkpath.
  destruct path as [|c path]; [congruence|].
  replace (Nat.leb (String.length (String c path)) 0) with false by reflexivity.
  rewrite Hm. simpl negb. now destruct (decide _).
Qed.

Lemma mkpath_slash (path : string) (st : State W) :
  path <> "" ->
  malloc libc (world st) (String.length path + 1) = true ->
  last_char path = Some "/"%char ->
  mkpath libc path st
  = (do r <- do_mkdir libc (Str.take (String.length path - 1) path) ;;
     match r with
     | None => ret 1
     | Some _ => mkpath_loop libc (Str.take 1 path) (Str.drop 1 path)
     end) st.
Proof.
  intros Hne Hm Hl. unfold mkpath.
  destruct path as [|c path]; [congruence|].
  replace (Nat.leb (String.length (String c path)) 0) with false by reflexivity.
  rewrite Hm. simpl negb. now destruct (decide _).
Qed.

(** C5: mkpath always returns 1 or 0.  It asks mkdir for the directories
    before the separators of the path in turn; a mkdir that fails with ENOENT
    there ends it at once with 0, and every other outcome of mkdir, an
    existing directory and a refused permission alike, lets it go on, so that
    without such an ENOENT it returns 1.  It returns 0 otherwise only for an
    empty path or when the copy of the path cannot be allocated.  For a path
    that ends in a slash, the path without it is tried first: success there
    ends mkpath with 1, any failure leads into the same loop. *)
Theorem C5_mkpath_only_ENOENT_is_fatal (path : string) (st : State W) :
  exists (r : Z) (st' : State W) (evs : list event),
    mkpath libc path st = Some (r, st')
    /\ trace st' = (trace st ++ evs)%list
    /\ (r = 1 \/
        r = 0 /\ (path = ""
                  \/ malloc libc (world st) (String.length path + 1) = false
                  \/ exists pre p, evs = (pre ++ [ev_mkdir p (Some ENOENT)])%list))
    /\ (path <> "" ->
        malloc libc (world st) (String.length path + 1) = true ->
        Forall not_ENOENT evs ->
        r = 1)
    /\ (path <> "" ->
        malloc libc (world st) (String.length path + 1) = true ->
        last_char path <> Some "/"%char ->
        exists missing : bool,
          make_dirs libc (ancestors path) (world st) = (evs, world st', missing)
          /\ r = (if missing then 0 else 1)
          /\ (missing = true
              <-> exists pre p, evs = (pre ++ [ev_mkdir p (Some ENOENT)])%list))
    /\ (path <> "" ->
        malloc libc (world st) (String.length path + 1) = true ->
        last_char path = Some "/"%char ->
        exists (w1 : W) (res : option errno),
          mkdir libc (world st) (Str.take (String.length path - 1) path) = (w1, res)
          /\ match res with
             | None =>
                 r = 1 /\ world st' = w1
                 /\ evs = [ev_mkdir (Str.take (String.length path - 1) path) None]
             | Some _ =>
                 exists (loop : list event) (missing : bool),
                   make_dirs libc (ancestors path) w1 = (loop, world st', missing)
                   /\ evs = ev_mkdir (Str.take (String.length path - 1) path) res :: loop
                   /\ r = (if missing then 0 else 1)
                   /\ (missing = true
                       <-> exists pre p,
                             loop = (pre ++ [ev_mkdir p (Some ENOENT)])%list)
             end).
Proof.
  destruct (mkpath_outcome path st) as (r & st' & evs & Hrun & Htr & Hout).
  exists r, st', evs.
  split; [exact Hrun|]. split; [exact Htr|]. split; [exact Hout|]. split; [|split].
  - intros Hne Hm Hall.
    destruct Hout as [?|(_ & [?|[?|(pre & p & ->)]])]; try congruence.
    now apply not_ENOENT_last in Hall.
  - intros Hne Hm Hl.
    rewrite (mkpath_no_slash path st Hne Hm Hl) in Hrun.
    destruct (mkpath_loop_make_dirs (Str.drop 1 path) (Str.take 1 path) st)
      as (evs2 & w' & missing & Hmk & Hloop).
    rewrite Hloop in Hrun. inversion Hrun; subst r st'. simpl in Htr.
    apply app_inv_head in Htr. subst evs2.
    exists missing. split; [exact Hmk|]. split; [reflexivity|].
    now apply (make_dirs_missing_iff _ _ _ _ _ Hmk).
  - intros Hne Hm Hl.
    rewrite (mkpath_slash path st Hne Hm Hl) in Hrun.
    unfold bind, do_mkdir in Hrun.
    destruct (mkdir libc (world st) (Str.take (String.length path - 1) path))
      as [w1 res].
    exists w1, res. split; [reflexivity|].
    destruct res as [err|].
    + destruct (mkpath_loop_make_dirs (Str.drop 1 path) (Str.take 1 path)
                  (record (ev_mkdir (Str.take (String.length path - 1) path) (Some err))
                     (set_world w1 st)))
        as (loop & w' & missing & Hmk & Hloop).
      rewrite Hloop in Hrun. inversion Hrun; subst r st'. simpl in Htr.
      rewrite <- app_assoc in Htr. apply app_inv_head in Htr. subst evs.
      exists loop, missing. split; [exact Hmk|]. split; [reflexivity|].
      split; [reflexivity|]. now apply (make_dirs_missing_iff _ _ _ _ _ Hmk).
    + inversion Hrun; subst r st'. simpl in Htr. apply app_inv_head in Htr.
      subst evs. auto.
Qed.

End Mkpath.

Lemma C5_witness :
  (exists st' : State MemFS.fs,
      mkpath (offline_libc 0) app_pdb (MemFS.init (cache_with "") []) = Some (1, st'))
  /\ (exists st' : State MemFS.fs,
        mkpath (offline_libc 0) "/ro/x/y/app.pdb" (MemFS.init read_only_root [])
        = Some (0, st')).
Proof.
  split.
  - destruct (C5_mkpath_only_ENOENT_is_fatal (offline_libc 0) app_pdb
                (MemFS.init (cache_with "") []))
      as (r & st' & evs & Hrun & Htr & _ & Htol & _).
    exists st'. rewrite Hrun. f_equal. f_equal.
    apply Htol; [discriminate | reflexivity |].
    vm_compute in Hrun. injection Hrun as _ <-.
    simpl in Htr. subst evs.
    repeat constructor; intros p; discriminate.
  - destruct (C5_mkpath_only_ENOENT_is_fatal (offline_libc 0) "/ro/x/y/app.pdb"
                (MemFS.init read_only_root []))
      as (r & st' & evs & Hrun & _ & _ & _ & Hloop & _).
    destruct Hloop as (missing & Hmk & Hr & _);
      [discriminate | reflexivity | discriminate |].
    exists st'. rewrite Hrun, Hr. f_equal. f_equal.
    vm_compute in Hmk. now injection Hmk as _ _ <-.
Defined.

(** In a directory that refuses the creation, mkdir fails with EACCES, the
    directory is not there afterwards, and mkpath reports success. *)
Lemma C5_permission_denied_is_success :
  exists st' : State MemFS.fs,
    mkpath (offline_libc 0) "/ro/sub/app.pdb" (MemFS.init read_only_root []) = Some (1, st')
    /\ trace st' = [ev_mkdir "/ro" (Some EEXIST); ev_mkdir "/ro/sub" (Some EACCES)]
    /\ stat (offline_libc 0) (world st') "/ro/sub" = false.
Proof.
  eexists. split; [vm_compute; reflexivity|].
  split; vm_compute; reflexivity.
Qed.

(** ** A failed download *)

Lemma trace_extends_record {W : Type} (e : event) (st : State W) :
  trace_extends st (record e st).
Proof. now exists [e]. Qed.

Lemma trace_extends_set_world {W : Type} (w : W) (st : State W) :
  trace_extends st (set_world w st).
Proof. exists []. simpl. now rewrite app_nil_r. Qed.

Section Download.

Context {W : Type} (libc : Libc W).

Local Ltac frame :=
  first [ exact trace_extends_refl | exact trace_extends_trans
        | exact trace_extends_record | exact trace_extends_set_world ].

(** Whatever [load_url] returned, the native file is opened for writing and
    the converter is run: no step of the block looks at the download. *)
Lemma download_and_convert_opens root_path path path_pdb (st : State W) u st' :
  download_and_convert libc root_path path path_pdb st = Some (u, st') ->
  In (ev_fopen (Str.c_str path_pdb)) (trace st').
Proof.
  unfold download_and_convert. intros H.
  unfold bind in H at 1.
  destruct (load_url libc _ st) as [[loaded st2]|]; [|discriminate].
  unfold bind in H at 1.
  destruct (mkpath libc _ st2) as [[z st3]|]; [|discriminate].
  unfold bind in H at 1.
  assert (exists f st4, do_fopen_wb libc (Str.c_str path_pdb) st3 = Some (f, st4)
                        /\ In (ev_fopen (Str.c_str path_pdb)) (trace st4))
    as (f & st4 & Hf & Hin).
  { unfold do_fopen_wb. destruct (fopen_wb libc _ _);
      eexists _, _; (split; [reflexivity|]); simpl; apply in_or_app; right; now left. }
  rewrite Hf in H.
  eapply trace_extends_In; [|exact Hin].
  revert H. apply keeps_bind; [frame | |].
  - destruct f; [apply keeps_do_fwrite | apply keeps_ret]; frame.
  - intros _. apply keeps_bind; [frame | apply keeps_do_system; frame |].
    intros status. destruct (status =? 0); [apply keeps_do_unlink | apply keeps_ret]; frame.
Qed.

(** A lookup that does not find the symbol file opens the native file for
    writing, whether the download succeeded or not. *)
Lemma missing_symbol_file_opens_native_file
    (m : CodeModule) (root_path path path_pdb : string) (st : State W) r st' :
  symbol_paths m root_path = Some (path, path_pdb) ->
  stat libc (world st) (Str.c_str path) = false ->
  GetSymbolFileAtPathFromRoot libc (Some m) root_path st = Some (r, st') ->
  In (ev_fopen (Str.c_str path_pdb)) (trace st').
Proof.
  intros Hsym Hstat. unfold GetSymbolFileAtPathFromRoot. rewrite Hsym.
  unfold bind at 1. unfold file_exists at 1. rewrite Hstat. simpl negb.
  unfold bind at 1.
  destruct (download_and_convert libc root_path path path_pdb _) as [[u st1]|] eqn:Ed;
    [|discriminate].
  apply download_and_convert_opens in Ed. intros H.
  eapply trace_extends_In; [|exact Ed].
  revert H. apply keeps_bind; [frame | apply keeps_file_exists; frame |].
  intros present. destruct (negb present); apply keeps_ret; frame.
Qed.

End Download.

(** C2 (the source departs from it): in an empty cache and with the
    download failing, GetSymbolFileAtPathFromRoot still opens the native file
    for writing.  When the unassigned size happens to be 0 the call returns
    NOT_FOUND and leaves an empty native file behind; for any other value the
    fwrite from a null pointer has undefined behaviour. *)
Theorem C2_failed_download_still_writes :
  MemFS.files cache_only !! app_pdb = None
  /\ curl (offline_libc 0) cache_only (symbol_url "/cache" app_pdb) = curl_performed [] false
  /\ (exists st' : State MemFS.fs,
        GetSymbolFileAtPathFromRoot (offline_libc 0) (Some app_exe) "/cache"
          (MemFS.init cache_only ["/cache"]) = Some ((NOT_FOUND, ""), st')
        /\ In (ev_fopen app_pdb) (trace st')
        /\ MemFS.files (world st') !! app_pdb = Some ""
        /\ stat (offline_libc 0) (world st') app_pdb = true)
  /\ (forall junk : Z,
        junk = 0
        \/ GetSymbolFileAtPathFromRoot (offline_libc junk) (Some app_exe) "/cache"
             (MemFS.init cache_only ["/cache"]) = None).
Proof.
  split; [reflexivity|]. split; [reflexivity|]. split.
  - eexists. split; [vm_compute; reflexivity|].
    split; [vm_compute; repeat ((left; reflexivity) || right)|].
    split; vm_compute; reflexivity.
  - intros [|j|j]; [now left | right | right]; vm_compute; reflexivity.
Qed.

(** With a shell that creates the redirection target before the converter
    fails, the same failed download ends in FOUND, for an empty symbol file,
    and the empty native file stays as well. *)
Lemma failed_download_empty_symbol_file :
  exists st' : State MemFS.fs,
    GetSymbolFileAtPathFromRoot
      (MemFS.libc MemFS.offline MemFS.failing_converter 0) (Some app_exe) "/cache"
      (MemFS.init cache_only ["/cache"]) = Some ((FOUND, app_sym), st')
    /\ MemFS.files (world st') !! app_sym = Some ""
    /\ MemFS.files (world st') !! app_pdb = Some "".
Proof.
  eexists. split; [vm_compute; reflexivity|].
  split; vm_compute; reflexivity.
Qed.

(** * Further properties of the code *)

(** ** Derivation of the paths *)

Lemma empty_app (s t : string) : Str.empty (s ++ t) = (Str.empty s && Str.empty t)%bool.
Proof. destruct s; [destruct t|]; reflexivity. Qed.

Lemma length_take (n : nat) (s : string) :
  String.length (Str.take n s) = Nat.min n (String.length s).
Proof.
  revert s; induction n as [|n IH]; intros [|c s]; simpl; try reflexivity.
  now rewrite IH.
Qed.

Lemma take_length (s : string) : Str.take (String.length s) s = s.
Proof. induction s as [|c s IH]; simpl; [reflexivity | now rewrite IH]. Qed.

Lemma app_empty_r (s : string) : s ++ "" = s.
Proof. induction s as [|c s IH]; [reflexivity | now rewrite app_String, IH]. Qed.

Lemma length_0 (s : string) : String.length s = 0%nat -> s = "".
Proof. destruct s; [reflexivity | discriminate]. Qed.

Lemma file_stem_pdb (stem ext : string) :
  stem <> "" -> String.length ext = 4%nat -> lower ext = ".pdb" ->
  file_stem (stem ++ ext) = stem.
Proof.
  intros Hstem Hlen Hlow. unfold file_stem. rewrite length_app, Hlen.
  assert (0 < String.length stem)%nat as Hpos
    by (destruct stem; [congruence | simpl; lia]).
  replace (Nat.ltb 4 (String.length stem + 4)) with true
    by (symmetry; apply Nat.ltb_lt; lia).
  rewrite Nat.add_sub, drop_app_length.
  unfold lower in Hlow. rewrite Hlow. simpl.
  rewrite substr_0. apply take_app_length.
Qed.

(** X1: the derivation of the paths fails exactly when the module has no
    debug file base name and the base name of its code file has at most three
    characters; the search root plays no part in it. *)
Theorem symbol_paths_None_iff (m : CodeModule) (root_path : string) :
  symbol_paths m root_path = None
  <-> PathnameStripper.File (debug_file m) = ""
      /\ (String.length (PathnameStripper.File (code_file m)) <= 3)%nat.
Proof.
  unfold symbol_paths, debug_file_name_of.
  destruct (PathnameStripper.File (debug_file m)) as [|a d] eqn:Ed; simpl.
  - destruct (Nat.ltb_spec 3 (String.length (PathnameStripper.File (code_file m))))
      as [Hlt|Hle].
    + rewrite empty_app, andb_false_r. split; [discriminate | intros [_ ?]; lia].
    + simpl. split; auto.
  - split; [discriminate | intros [? _]; discriminate].
Qed.

(** X2: for a module without debug file whose code file is named
    base.xyz, with a non-empty base and a three-character extension, the debug
    file name is base.pdb and the two paths end in base.sym and base.pdb
    beneath the directory made for base.pdb. *)
Theorem symbol_paths_three_letter_extension
    (m : CodeModule) (root_path base ext : string) :
  PathnameStripper.File (debug_file m) = "" ->
  PathnameStripper.File (code_file m) = base ++ String "."%char ext ->
  String.length ext = 3%nat ->
  base <> "" ->
  debug_file_name_of m = base ++ ".pdb"
  /\ symbol_paths m root_path
     = Some (symbol_dir root_path (base ++ ".pdb") m ++ "/" ++ base ++ ".sym",
             symbol_dir root_path (base ++ ".pdb") m ++ "/" ++ base ++ ".pdb").
Proof.
  intros Hd Hc Hext Hbase.
  assert (debug_file_name_of m = base ++ ".pdb") as Hname.
  { unfold debug_file_name_of. rewrite Hd, Hc. simpl Str.empty.
    rewrite length_app. simpl String.length. rewrite Hext.
    replace (Nat.ltb 3 (String.length base + 4)) with true
      by (symmetry; apply Nat.ltb_lt; lia).
    simpl andb. cbv iota.
    replace (String.length base + 4 - 3)%nat with (String.length (base ++ "."))
      by (rewrite length_app; simpl; lia).
    rewrite substr_0.
    change (base ++ String "."%char ext) with (base ++ "." ++ ext).
    rewrite <- app_assoc_s, take_app_length.
    now rewrite app_assoc_s. }
  split; [exact Hname|].
  unfold symbol_paths. rewrite Hname.
  assert (Str.empty (base ++ ".pdb") = false) as ->
    by (rewrite empty_app; apply andb_false_r).
  rewrite (file_stem_pdb base ".pdb" Hbase eq_refl eq_refl).
  now rewrite !app_assoc_s.
Qed.

Lemma symbol_paths_three_letter_extension_witness :
  debug_file_name_of app_exe = "app.pdb"
  /\ symbol_paths app_exe "/srv/symbols"
     = Some ("/srv/symbols/app.pdb/ABC123/app.sym", "/srv/symbols/app.pdb/ABC123/app.pdb").
Proof.
  apply (symbol_paths_three_letter_extension app_exe "/srv/symbols" "app" "exe");
    [reflexivity | reflexivity | reflexivity | discriminate].
Defined.

(** X3: when the derivation succeeds, both paths are the root followed by
    one and the same relative name, with the extensions ".sym" and ".pdb";
    that relative name does not depend on the root, and the URL requested is
    the server followed by the relative ".pdb" name, whatever the root. *)
Theorem symbol_paths_relative (m : CodeModule) :
  debug_file_name_of m <> "" ->
  exists rel : string,
    forall root_path : string,
      symbol_paths m root_path
      = Some (root_path ++ "/" ++ rel ++ ".sym", root_path ++ "/" ++ rel ++ ".pdb")
      /\ symbol_url root_path (root_path ++ "/" ++ rel ++ ".pdb")
         = symbol_server ++ Str.c_str ("/" ++ rel ++ ".pdb").
Proof.
  intros Hd.
  set (d := debug_file_name_of m).
  set (seg := if (negb (Str.empty (debug_identifier m)) || negb (Str.empty (version m)))%bool
              then "/" ++ (if negb (Str.empty (debug_identifier m))
                           then debug_identifier m else version m)
              else "").
  exists (d ++ seg ++ "/" ++ file_stem d).
  intros root_path. split.
  - rewrite (symbol_paths_shape m root_path Hd). cbv zeta. fold d.
    assert (symbol_dir root_path d m = root_path ++ "/" ++ d ++ seg) as ->.
    { unfold symbol_dir, seg.
      destruct (negb (Str.empty (debug_identifier m)) || negb (Str.empty (version m)))%bool.
      - now rewrite !app_assoc_s.
      - now rewrite app_empty_r. }
    now rewrite !app_assoc_s.
  - unfold symbol_url. now rewrite drop_app_length.
Qed.

Lemma symbol_paths_relative_witness :
  exists rel : string,
    symbol_paths lib_dbg "/cache"
    = Some ("/cache" ++ "/" ++ rel ++ ".sym", "/cache" ++ "/" ++ rel ++ ".pdb")
    /\ symbol_paths lib_dbg "/mnt/other"
       = Some ("/mnt/other" ++ "/" ++ rel ++ ".sym", "/mnt/other" ++ "/" ++ rel ++ ".pdb")
    /\ symbol_url "/mnt/other" ("/mnt/other" ++ "/" ++ rel ++ ".pdb")
       = symbol_url "/cache" ("/cache" ++ "/" ++ rel ++ ".pdb").
Proof.
  destruct (symbol_paths_relative lib_dbg) as [rel H]; [discriminate|].
  exists rel.
  destruct (H "/cache") as [H1 U1]. destruct (H "/mnt/other") as [H2 U2].
  split; [exact H1|]. split; [exact H2|]. now rewrite U1, U2.
Defined.

(** X4: the stem is a non-empty beginning of a non-empty debug file name,
    and what is cut off is either nothing or four characters that read
    ".pdb" in lower case: no symbol file is named ".sym" alone. *)
Theorem file_stem_prefix (name : string) :
  name <> "" ->
  file_stem name <> ""
  /\ exists ext : string,
       name = file_stem name ++ ext
       /\ (ext = "" \/ String.length ext = 4%nat /\ lower ext = ".pdb").
Proof.
  intros Hname. unfold file_stem.
  destruct (Nat.ltb_spec 4 (String.length name)) as [Hlt|Hge].
  - destruct (String.eqb_spec
                (Str.transform Str.tolower (Str.drop (String.length name - 4) name))
                ".pdb") as [Heq|Hne].
    + rewrite substr_0. split.
      * intros H. apply (f_equal String.length) in H.
        rewrite length_take in H. simpl in H. lia.
      * exists (Str.drop (String.length name - 4) name). split.
        -- symmetry. apply take_drop.
        -- right. split; [rewrite length_drop; lia | exact Heq].
    + split; [exact Hname|]. exists "". split; [now rewrite app_empty_r | now left].
  - simpl. split; [exact Hname|]. exists "". split; [now rewrite app_empty_r | now left].
Qed.

Lemma file_stem_prefix_witness :
  file_stem "kernel32.PDB" <> ""
  /\ exists ext : string,
       "kernel32.PDB" = file_stem "kernel32.PDB" ++ ext
       /\ (ext = "" \/ String.length ext = 4%nat /\ lower ext = ".pdb").
Proof. apply (file_stem_prefix "kernel32.PDB"). discriminate. Defined.

(** ** Results of a lookup *)

Section Lookup.

Context {W : Type} (libc : Libc W).

Lemma root_result
    (module : option CodeModule) (root_path : string) (st : State W)
    (r : SymbolResult) (file : string) (st' : State W) :
  GetSymbolFileAtPathFromRoot libc module root_path st = Some ((r, file), st') ->
  r = NOT_FOUND /\ file = ""
  \/ r = FOUND
     /\ exists (m : CodeModule) (path_pdb : string),
          module = Some m
          /\ symbol_paths m root_path = Some (file, path_pdb)
          /\ stat libc (world st') (Str.c_str file) = true.
Proof.
  unfold GetSymbolFileAtPathFromRoot. intros H.
  destruct module as [m|]; [|inversion H; now left].
  destruct (symbol_paths m root_path) as [[path path_pdb]|] eqn:Hsym;
    [|inversion H; now left].
  unfold bind at 1 in H. unfold file_exists at 1 in H.
  unfold bind at 1 in H.
  match type of H with
  | match ?run with _ => _ end = _ => destruct run as [[u st2]|]; [|discriminate]
  end.
  unfold bind, file_exists in H.
  destruct (stat libc (world st2) (Str.c_str path)) eqn:Hstat; simpl in H;
    inversion H; subst; [right | now left].
  split; [reflexivity|]. exists m, path_pdb. auto.
Qed.

(** X5: a lookup under one root never answers INTERRUPT.  With NOT_FOUND
    symbol_file is left empty; with FOUND it is the path derived from the
    root for a non-null module, and that path exists in the world the call
    leaves behind. *)
Theorem GetSymbolFileAtPathFromRoot_result
    (module : option CodeModule) (root_path : string) (st : State W)
    (r : SymbolResult) (file : string) (st' : State W) :
  GetSymbolFileAtPathFromRoot libc module root_path st = Some ((r, file), st') ->
  r = NOT_FOUND /\ file = ""
  \/ r = FOUND
     /\ exists (m : CodeModule) (path_pdb : string),
          module = Some m
          /\ symbol_paths m root_path = Some (file, path_pdb)
          /\ stat libc (world st') (Str.c_str file) = true.
Proof. apply root_result. Qed.

Lemma GetSymbolFile_from_result
    (module : option CodeModule) (paths : list string) :
  forall (st : State W) (r : SymbolResult) (file : string) (st' : State W),
    GetSymbolFile_from libc module paths st = Some ((r, file), st') ->
    r = NOT_FOUND /\ file = ""
    \/ r = FOUND
       /\ exists (m : CodeModule) (root_path path_pdb : string),
            module = Some m /\ In root_path paths
            /\ symbol_paths m root_path = Some (file, path_pdb)
            /\ stat libc (world st') (Str.c_str file) = true.
Proof.
  induction paths as [|root_path rest IH]; intros st r file st' H; simpl in H.
  - inversion H. now left.
  - unfold bind in H.
    destruct (GetSymbolFileAtPathFromRoot libc module root_path st)
      as [[[r1 f1] st1]|] eqn:E1; [|discriminate].
    apply root_result in E1
      as [[-> ->]|(-> & m & path_pdb & Hm & Hsym & Hstat)]; simpl in H.
    + apply IH in H as [?|(-> & m & root' & pdb & ? & ? & ? & ?)]; [now left | right].
      split; [reflexivity|]. exists m, root', pdb. simpl. auto.
    + inversion H; subst. right. split; [reflexivity|].
      exists m, root_path, path_pdb. simpl. auto.
Qed.

(** X6: GetSymbolFile never answers INTERRUPT.  With NOT_FOUND symbol_file
    is empty; with FOUND it is the path derived from one of the roots of
    paths_, and that path exists in the world the call leaves behind. *)
Theorem GetSymbolFile_result
    (module : option CodeModule) (st : State W)
    (r : SymbolResult) (file : string) (st' : State W) :
  GetSymbolFile libc module st = Some ((r, file), st') ->
  r = NOT_FOUND /\ file = ""
  \/ r = FOUND
     /\ exists (m : CodeModule) (root_path path_pdb : string),
          module = Some m /\ In root_path (paths_ st)
          /\ symbol_paths m root_path = Some (file, path_pdb)
          /\ stat libc (world st') (Str.c_str file) = true.
Proof. apply GetSymbolFile_from_result. Qed.

(** X7: the roots are tried in order and the first answer other than
    NOT_FOUND ends the search: a lookup over two lists of roots is the
    lookup over the first, followed, only when that says NOT_FOUND, by the
    lookup over the second from the state the first one left. *)
Theorem GetSymbolFile_from_app
    (module : option CodeModule) (roots1 roots2 : list string) (st : State W) :
  GetSymbolFile_from libc module (roots1 ++ roots2)%list st
  = match GetSymbolFile_from libc module roots1 st with
    | Some ((NOT_FOUND, _), st1) => GetSymbolFile_from libc module roots2 st1
    | other => other
    end.
Proof.
  revert st. induction roots1 as [|root_path rest IH]; intros st; simpl.
  - reflexivity.
  - unfold bind.
    destruct (GetSymbolFileAtPathFromRoot libc module root_path st)
      as [[[r f] st1]|]; [|reflexivity].
    destruct r; simpl; [apply IH | reflexivity | reflexivity].
Qed.

(** X8: for a null module, and for a module from which no debug file name
    can be made, GetCStringSymbolData answers NOT_FOUND whatever the roots
    are, assigns neither output parameter and leaves the state as it was: no
    call to the operating system is made and no buffer is allocated. *)
Theorem GetCStringSymbolData_no_name (module : option CodeModule) (st : State W) :
  module = None \/ (exists m : CodeModule, module = Some m /\ debug_file_name_of m = "") ->
  GetCStringSymbolData libc module st = Some ((NOT_FOUND, "", None), st).
Proof.
  intros Hmod.
  assert (forall root_path st0,
             GetSymbolFileAtPathFromRoot libc module root_path st0
             = Some ((NOT_FOUND, ""), st0)) as Hroot.
  { intros root_path st0. unfold GetSymbolFileAtPathFromRoot.
    destruct Hmod as [->|(m & -> & Hd)]; [reflexivity|].
    unfold symbol_paths. now rewrite Hd. }
  assert (forall paths st0,
             GetSymbolFile_from libc module paths st0 = Some ((NOT_FOUND, ""), st0)) as Hall.
  { induction paths as [|root_path rest IH]; intros st0; simpl; [reflexivity|].
    unfold bind. rewrite Hroot. simpl. apply IH. }
  unfold GetCStringSymbolData, GetSymbolFileData, GetSymbolFile, bind.
  now rewrite Hall.
Qed.

End Lookup.

Lemma GetCStringSymbolData_no_name_witness :
  GetCStringSymbolData (offline_libc 0) (Some nameless)
    (MemFS.init cache_only ["/cache"; "/other"])
  = Some ((NOT_FOUND, "", None), MemFS.init cache_only ["/cache"; "/other"]).
Proof.
  apply (GetCStringSymbolData_no_name (offline_libc 0) (Some nameless)).
  right. exists nameless. split; reflexivity.
Defined.

Lemma GetSymbolFileAtPathFromRoot_result_witness :
  FOUND = NOT_FOUND /\ app_sym = ""
  \/ FOUND = FOUND
     /\ exists (m : CodeModule) (path_pdb : string),
          Some app_exe = Some m
          /\ symbol_paths m "/cache" = Some (app_sym, path_pdb)
          /\ stat (offline_libc 0) (cache_with "MODULE x") (Str.c_str app_sym) = true.
Proof.
  apply (GetSymbolFileAtPathFromRoot_result (offline_libc 0) (Some app_exe) "/cache"
           (MemFS.init (cache_with "MODULE x") ["/cache"]) FOUND app_sym
           (record (ev_stat app_sym)
              (record (ev_stat app_sym) (MemFS.init (cache_with "MODULE x") ["/cache"])))).
  vm_compute. reflexivity.
Defined.

Lemma GetSymbolFile_result_witness :
  exists st' : State MemFS.fs,
    GetSymbolFile (offline_libc 0) (Some app_exe)
      (MemFS.init (cache_with "MODULE x") ["/other"; "/cache"])
    = Some ((FOUND, app_sym), st')
    /\ (FOUND = NOT_FOUND /\ app_sym = ""
        \/ FOUND = FOUND
           /\ exists (m : CodeModule) (root_path path_pdb : string),
                Some app_exe = Some m /\ In root_path ["/other"; "/cache"]
                /\ symbol_paths m root_path = Some (app_sym, path_pdb)
                /\ stat (offline_libc 0) (world st') (Str.c_str app_sym) = true).
Proof.
  eexists. split; [vm_compute; reflexivity|].
  apply (GetSymbolFile_result (offline_libc 0) (Some app_exe)
           (MemFS.init (cache_with "MODULE x") ["/other"; "/cache"]) FOUND app_sym).
  vm_compute. reflexivity.
Defined.

(** ** The download *)

Lemma get_drop (n : nat) (s : string) (c : ascii) :
  String.get n s = Some c -> Str.drop n s = String c (Str.drop (S n) s).
Proof.
  revert s; induction n as [|n IH]; intros [|a s] H; simpl in H; try discriminate.
  - now inversion H.
  - now apply IH.
Qed.

Lemma drop_length (s : string) : Str.drop (String.length s) s = "".
Proof. induction s as [|c s IH]; [reflexivity | exact IH]. Qed.

Lemma last_char_split (s : string) (c : ascii) :
  last_char s = Some c -> s = Str.take (String.length s - 1) s ++ String c "".
Proof.
  unfold last_char. intros H.
  destruct s as [|a s]; [discriminate|].
  rewrite <- (take_drop (String.length (String a s) - 1) (String a s)) at 1.
  f_equal. rewrite (get_drop _ _ _ H). f_equal.
  replace (S (String.length (String a s) - 1)) with (String.length (String a s))
    by (simpl; lia).
  apply drop_length.
Qed.

Section Fetch.

Context {W : Type} (libc : Libc W).

(** The callback keeps the size equal to the number of bytes stored, and
    stores the chunks in the order of their arrival. *)
Lemma deliver_spec (chunks : list string) :
  forall (b : buffer) (st : State W) (b' : buffer) (st' : State W),
    deliver libc chunks b st = Some (b', st') ->
    st' = st
    /\ m_buf_size b' = m_buf_size b + Z.of_nat (String.length (join chunks))
    /\ default "" (m_buffer b') = default "" (m_buffer b) ++ join chunks.
Proof.
  induction chunks as [|chunk rest IH]; intros b st b' st' H; simpl in H.
  - inversion H; subst. simpl. rewrite app_empty_r. repeat split. lia.
  - unfold bind, buffer_write_cb in H.
    destruct ((_ <=? INT_MAX) && _)%bool; [|discriminate].
    apply IH in H as (-> & Hsize & Hbuf). simpl in Hsize, Hbuf.
    split; [reflexivity|]. split.
    + rewrite Hsize. simpl join. rewrite length_app. lia.
    + rewrite Hbuf. simpl join. now rewrite app_assoc_s.
Qed.

Lemma load_url_spec (url : string) (st : State W) data size st' :
  load_url libc url st = Some ((data, size), st') ->
  st' = record (ev_curl url) st
  /\ (data = None /\ size = None
         /\ (forall chunks, curl libc (world st) url <> curl_performed chunks true)
      \/ exists chunks : list string,
           curl libc (world st) url = curl_performed chunks true
           /\ default "" data = join chunks
           /\ size = Some (Z.of_nat (String.length (join chunks)))).
Proof.
  unfold load_url. simpl world. intros H.
  destruct (curl libc (world st) url) as [|chunks ok] eqn:Ec.
  - inversion H; subst. split; [reflexivity|]. left. repeat split. discriminate.
  - destruct (deliver libc chunks _ _) as [[b st1]|] eqn:Ed; [|discriminate].
    apply deliver_spec in Ed as (-> & Hsize & Hbuf). simpl in Hsize, Hbuf.
    destruct ok; inversion H; subst; (split; [reflexivity|]).
    + right. exists chunks. repeat split; [exact Hbuf | now rewrite Hsize].
    + left. repeat split. congruence.
Qed.

Lemma fwrite_whole (data : option string) (body p : string) (st : State W) :
  default "" data = body ->
  do_fwrite libc data (Z.of_nat (String.length body)) p st
  = Some (tt, set_world (fwrite_bytes libc (world st) p body) st).
Proof.
  intros Hbody. unfold do_fwrite.
  destruct (Z.eqb_spec (Z.of_nat (String.length body)) 0) as [H0|Hn].
  - assert (body = "") as -> by (apply length_0; lia). reflexivity.
  - destruct data as [d|]; simpl in Hbody; subst body; [|simpl in Hn; lia].
    replace (0 <? Z.of_nat (String.length d)) with true
      by (symmetry; apply Z.ltb_lt; lia).
    rewrite Z.leb_refl. simpl.
    now rewrite Nat2Z.id, take_length.
Qed.

(** X9: load_url records one request and leaves the world alone.  It
    returns a null pointer and no size unless curl reports success; on
    success the bytes returned are the chunks handed to the callback, in
    order, the size is their number, and the fwrite of that many bytes
    from the pointer is defined and writes exactly those bytes. *)
Theorem load_url_body (url : string) (st : State W) data size st' :
  load_url libc url st = Some ((data, size), st') ->
  st' = record (ev_curl url) st
  /\ (data = None /\ size = None
         /\ (forall chunks, curl libc (world st) url <> curl_performed chunks true)
      \/ exists chunks : list string,
           curl libc (world st) url = curl_performed chunks true
           /\ default "" data = join chunks
           /\ size = Some (Z.of_nat (String.length (join chunks)))
           /\ forall (p : string) (st2 : State W),
                do_fwrite libc data (Z.of_nat (String.length (join chunks))) p st2
                = Some (tt, set_world (fwrite_bytes libc (world st2) p (join chunks)) st2)).
Proof.
  intros H. apply load_url_spec in H as [Hst [?|(chunks & Hc & Hd & Hs)]].
  - split; [exact Hst | now left].
  - split; [exact Hst|]. right. exists chunks. repeat split; try assumption.
    intros p st2. now apply fwrite_whole.
Qed.

End Fetch.

Lemma load_url_body_witness :
  exists (data : option string) (st' : State MemFS.fs),
    load_url (MemFS.libc (serving ["MZ"; ""; "data"]) MemFS.no_converter 0)
      "http://host/a.pdb" (MemFS.init cache_only [])
    = Some ((data, Some 6), st')
    /\ default "" data = "MZdata"
    /\ trace st' = [ev_curl "http://host/a.pdb"].
Proof.
  eexists _, _. split; [vm_compute; reflexivity|].
  destruct (load_url_body (MemFS.libc (serving ["MZ"; ""; "data"]) MemFS.no_converter 0)
              "http://host/a.pdb" (MemFS.init cache_only [])
              (Some "MZdata") (Some 6) _ ltac:(vm_compute; reflexivity))
    as [Hst [(? & ? & _)|(chunks & Hc & Hd & _)]]; [discriminate|].
  split; [reflexivity | reflexivity].
Defined.

(** ** What mkpath asks for, and the steps of a download *)

Lemma filter_mkdir_of_prefix (path : string) (f : event -> bool) (evs : list event) :
  (forall p r, f (ev_mkdir p r) = false) ->
  Forall (mkdir_of_prefix path) evs -> List.filter f evs = [].
Proof.
  intros Hf H. induction H as [|e evs (p & r & -> & _) _ IH]; [reflexivity|].
  simpl. now rewrite Hf.
Qed.

Section Steps.

Context {W : Type} (libc : Libc W).

Lemma mkpath_loop_trace (rest : string) :
  forall (done path : string) (st : State W) (r : Z) (st' : State W),
    path = done ++ rest ->
    mkpath_loop libc done rest st = Some (r, st') ->
    exists evs : list event,
      trace st' = (trace st ++ evs)%list /\ Forall (mkdir_of_prefix path) evs.
Proof.
  induction rest as [|c rest IH]; intros done path st r st' Hpath H; simpl in H.
  - inversion H; subst. exists []. rewrite app_nil_r. auto.
  - assert (path = (done ++ String c "") ++ rest) as Hnext
        by (rewrite app_assoc_s; exact Hpath).
    destruct (is_separator c) eqn:Hsep; [|eapply IH; eassumption].
    unfold bind, do_mkdir in H.
    destruct (mkdir libc (world st) done) as [w res].
    assert (mkdir_of_prefix path (ev_mkdir done res)) as Hev
        by (exists done, res; split; [reflexivity | exists c, rest; auto]).
    destruct (is_ENOENT res).
    + inversion H; subst. exists [ev_mkdir done res]. auto.
    + apply (IH _ path) in H as (evs & Htr & Hall); [|exact Hnext].
      exists (ev_mkdir done res :: evs). split; [|now constructor].
      rewrite Htr. simpl. now rewrite <- app_assoc.
Qed.

Lemma mkpath_trace (path : string) (st : State W) (r : Z) (st' : State W) :
  mkpath libc path st = Some (r, st') ->
  exists evs : list event,
    trace st' = (trace st ++ evs)%list /\ Forall (mkdir_of_prefix path) evs.
Proof.
  unfold mkpath. intros H.
  destruct (Nat.leb (String.length path) 0);
    [inversion H; subst; exists []; rewrite app_nil_r; auto|].
  destruct (negb _); [inversion H; subst; exists []; rewrite app_nil_r; auto|].
  assert (path = Str.take 1 path ++ Str.drop 1 path) as Hsplit
      by (symmetry; apply take_drop).
  destruct (decide (last_char path = Some "/"%char)) as [Hlast|_];
    [|eapply mkpath_loop_trace; eassumption].
  unfold bind, do_mkdir in H.
  destruct (mkdir libc (world st) _) as [w res].
  assert (mkdir_of_prefix path
            (ev_mkdir (Str.take (String.length path - 1) path) res)) as Hev.
  { eexists _, res. split; [reflexivity|].
    exists "/"%char, "". split; [now apply last_char_split | reflexivity]. }
  destruct res as [err|].
  - apply (mkpath_loop_trace _ _ path) in H as (evs & Htr & Hall); [|exact Hsplit].
    eexists (_ :: evs). split; [|constructor; [exact Hev | exact Hall]].
    rewrite Htr. simpl. now rewrite <- app_assoc.
  - inversion H; subst. eexists [_]. split; [reflexivity | constructor; [exact Hev | constructor]].
Qed.

(** X10: mkpath calls nothing but mkdir, and only on parts of the path
    that end just before a slash or backslash of it: the last component,
    the file name, is never made a directory. *)
Theorem mkpath_makes_only_prefixes (path : string) (st : State W) (r : Z) (st' : State W) :
  mkpath libc path st = Some (r, st') ->
  exists evs : list event,
    trace st' = (trace st ++ evs)%list /\ Forall (mkdir_of_prefix path) evs.
Proof. apply mkpath_trace. Qed.

Lemma download_trace (root_path path path_pdb : string) (st : State W) u st' :
  download_and_convert libc root_path path path_pdb st = Some (u, st') ->
  exists (mk : list event) (w w' : W) (status : Z),
    Forall (mkdir_of_prefix (Str.c_str path_pdb)) mk
    /\ system libc w (Str.c_str (convert_cmd path path_pdb)) = (w', status)
    /\ trace st'
       = (trace st ++ [ev_curl (Str.c_str (symbol_url root_path path_pdb))] ++ mk
            ++ after_mkpath path path_pdb status)%list
    /\ world st' = (if status =? 0 then unlink libc w' (Str.c_str path_pdb) else w').
Proof.
  unfold download_and_convert. intros H.
  unfold bind at 1 in H.
  destruct (load_url libc _ st) as [[[data size] st1]|] eqn:El; [|discriminate].
  apply load_url_spec in El as [-> _].
  unfold bind at 1 in H.
  destruct (mkpath libc _ _) as [[z st2]|] eqn:Em; [|discriminate].
  apply mkpath_trace in Em as (mk & Htr2 & Hmk). simpl in Htr2.
  unfold bind at 1 in H.
  assert (exists f st3, do_fopen_wb libc (Str.c_str path_pdb) st2 = Some (f, st3)
                        /\ trace st3 = (trace st2 ++ [ev_fopen (Str.c_str path_pdb)])%list)
    as (f & st3 & Hf & Htr3)
    by (unfold do_fopen_wb; destruct (fopen_wb libc _ _); eexists _, _; split; reflexivity).
  rewrite Hf in H.
  unfold bind at 1 in H.
  match type of H with
  | match ?run with _ => _ end = _ => destruct run as [[[] st4]|] eqn:Ew; [|discriminate]
  end.
  assert (trace st4 = trace st3) as Htr4.
  { destruct f; [|now inversion Ew].
    unfold do_fwrite in Ew. repeat case_match; simplify_eq; reflexivity. }
  unfold bind, do_system in H.
  destruct (system libc (world st4) _) as [w' status] eqn:Es.
  exists mk, (world st4), w', status.
  split; [exact Hmk|]. split; [exact Es|].
  unfold after_mkpath.
  destruct (status =? 0); inversion H; subst; simpl;
    rewrite Htr4, Htr3, Htr2; (split; [|reflexivity]);
    repeat rewrite <- app_assoc; reflexivity.
Qed.


End Steps.

Lemma mkpath_makes_only_prefixes_witness :
  exists st' : State MemFS.fs,
    mkpath (offline_libc 0) app_pdb (MemFS.init cache_only []) = Some (1, st')
    /\ exists evs : list event,
         trace st' = ([] ++ evs)%list /\ Forall (mkdir_of_prefix app_pdb) evs.
Proof.
  eexists. split; [vm_compute; reflexivity|].
  apply (mkpath_makes_only_prefixes (offline_libc 0) app_pdb (MemFS.init cache_only []) 1).
  vm_compute. reflexivity.
Defined.


(** ** No second try *)

Section Once.

Context {W : Type} (libc : Libc W).

Lemma download_events_count (url path path_pdb : string) (mk : list event) (status : Z) :
  Forall (mkdir_of_prefix (Str.c_str path_pdb)) mk ->
  List.filter is_download ([ev_curl url] ++ mk ++ after_mkpath path path_pdb status)
  = [ev_curl url]
  /\ List.filter is_conversion ([ev_curl url] ++ mk ++ after_mkpath path path_pdb status)
     = [ev_system (Str.c_str (convert_cmd path path_pdb))].
Proof.
  intros Hmk. rewrite !List.filter_app.
  rewrite !(filter_mkdir_of_prefix _ _ _ (fun _ _ => eq_refl) Hmk).
  unfold after_mkpath. destruct (status =? 0); split; reflexivity.
Qed.

Lemma root_once (module : option CodeModule) (root_path : string) (st : State W) r st' :
  GetSymbolFileAtPathFromRoot libc module root_path st = Some (r, st') ->
  exists evs : list event,
    trace st' = (trace st ++ evs)%list
    /\ (length (List.filter is_download evs) <= 1)%nat
    /\ (length (List.filter is_conversion evs) <= 1)%nat.
Proof.
  unfold GetSymbolFileAtPathFromRoot. intros H.
  destruct module as [m|];
    [|inversion H; subst; exists []; rewrite app_nil_r; simpl; auto].
  destruct (symbol_paths m root_path) as [[path path_pdb]|];
    [|inversion H; subst; exists []; rewrite app_nil_r; simpl; auto].
  unfold bind at 1 in H. unfold file_exists at 1 in H.
  unfold bind at 1 in H.
  match type of H with
  | match ?run with _ => _ end = _ => destruct run as [[u st2]|] eqn:Ed; [|discriminate]
  end.
  assert (exists mid : list event,
             trace st2 = (trace st ++ [ev_stat (Str.c_str path)] ++ mid)%list
             /\ (length (List.filter is_download mid) <= 1)%nat
             /\ (length (List.filter is_conversion mid) <= 1)%nat)
    as (mid & Htr2 & Hd & Hc).
  { destruct (negb _).
    - apply download_trace in Ed as (mk & w & w' & status & Hmk & _ & Htr & _).
      destruct (download_events_count (Str.c_str (symbol_url root_path path_pdb))
                  path path_pdb mk status Hmk) as [Hfd Hfc].
      eexists. split.
      + rewrite Htr. simpl trace. rewrite <- app_assoc. reflexivity.
      + rewrite Hfd, Hfc. simpl. lia.
    - inversion Ed; subst. exists []. simpl. split; [reflexivity | split; lia]. }
  unfold bind, file_exists in H.
  exists ([ev_stat (Str.c_str path)] ++ mid ++ [ev_stat (Str.c_str path)])%list.
  split.
  - destruct (stat libc (world st2) (Str.c_str path)); simpl in H;
      inversion H; subst; simpl trace; rewrite Htr2;
      repeat rewrite <- app_assoc; reflexivity.
  - rewrite !List.filter_app, !List.length_app. simpl. lia.
Qed.

Lemma roots_once (module : option CodeModule) (paths : list string) :
  forall (st : State W) r st',
    GetSymbolFile_from libc module paths st = Some (r, st') ->
    exists evs : list event,
      trace st' = (trace st ++ evs)%list
      /\ (length (List.filter is_download evs) <= length paths)%nat
      /\ (length (List.filter is_conversion evs) <= length paths)%nat.
Proof.
  induction paths as [|root_path rest IH]; intros st r st' H; simpl in H.
  - inversion H; subst. exists []. rewrite app_nil_r. simpl. auto.
  - unfold bind in H.
    destruct (GetSymbolFileAtPathFromRoot libc module root_path st)
      as [[r1 st1]|] eqn:E1; [|discriminate].
    apply root_once in E1 as (evs1 & Htr1 & Hd1 & Hc1).
    destruct (negb _).
    + inversion H; subst. exists evs1. simpl. repeat split; [assumption | lia | lia].
    + apply IH in H as (evs2 & Htr2 & Hd2 & Hc2).
      exists (evs1 ++ evs2)%list. split.
      * rewrite Htr2, Htr1. now rewrite <- app_assoc.
      * rewrite !List.filter_app, !List.length_app. simpl. lia.
Qed.

(** X12: nothing is tried twice: in one GetSymbolFile the number of
    downloads, and the number of runs of the converter, is at most the number
    of roots in paths_. *)
Theorem GetSymbolFile_no_retry (module : option CodeModule) (st : State W) r st' :
  GetSymbolFile libc module st = Some (r, st') ->
  exists evs : list event,
    trace st' = (trace st ++ evs)%list
    /\ (length (List.filter is_download evs) <= length (paths_ st))%nat
    /\ (length (List.filter is_conversion evs) <= length (paths_ st))%nat.
Proof. apply roots_once. Qed.

End Once.

Lemma GetSymbolFile_no_retry_witness :
  exists (st' : State MemFS.fs) (evs : list event),
    GetSymbolFile (offline_libc 0) (Some app_exe) (MemFS.init cache_only ["/cache"; "/other"])
    = Some ((NOT_FOUND, ""), st')
    /\ trace st' = ([] ++ evs)%list
    /\ (length (List.filter is_download evs) <= 2)%nat
    /\ (length (List.filter is_conversion evs) <= 2)%nat.
Proof.
  assert (exists st' : State MemFS.fs,
             GetSymbolFile (offline_libc 0) (Some app_exe)
               (MemFS.init cache_only ["/cache"; "/other"]) = Some ((NOT_FOUND, ""), st'))
    as [st' Hrun] by (eexists; vm_compute; reflexivity).
  destruct (GetSymbolFile_no_retry (offline_libc 0) (Some app_exe)
              (MemFS.init cache_only ["/cache"; "/other"]) _ _ Hrun) as (evs & H).
  exists st', evs. split; [exact Hrun | exact H].
Defined.

(** ** Buffers: allocation, release and what is left behind *)

Lemma getline_split (content : string) (delim : ascii) :
  occurs delim (Str.getline content delim) = false
  /\ exists rest : string,
       content = Str.getline content delim ++ rest
       /\ (rest = "" \/ exists rest' : string, rest = String delim rest').
Proof.
  induction content as [|c s (IHo & rest & IHc & IHr)]; simpl.
  - split; [reflexivity|]. exists "". auto.
  - destruct (Ascii.eqb c delim) eqn:E; simpl.
    + apply Ascii.eqb_eq in E. subst c.
      split; [reflexivity|]. exists (String delim s). eauto.
    + rewrite E, IHo. split; [reflexivity|].
      exists rest. split; [|exact IHr]. rewrite app_String. now f_equal.
Qed.

Lemma get_app_length (s : string) (c : ascii) (t : string) :
  String.get (String.length s) (s ++ String c t) = Some c.
Proof. induction s as [|a s IH]; [reflexivity | exact IH]. Qed.

Lemma length_c_str (s : string) : (String.length (Str.c_str s) <= String.length s)%nat.
Proof.
  induction s as [|c s IH]; simpl; [lia|].
  destruct (Ascii.eqb c Str.NUL); simpl; lia.
Qed.

Lemma length_c_str_terminated (s t : string) :
  (String.length (Str.c_str (s ++ String Str.NUL t)) <= String.length s)%nat.
Proof.
  induction s as [|c s IH]; [simpl; lia|].
  rewrite app_String. simpl. destruct (Ascii.eqb c Str.NUL); simpl; lia.
Qed.

Lemma occurs_app (c : ascii) (s t : string) :
  occurs c (s ++ t) = (occurs c s || occurs c t)%bool.
Proof.
  induction s as [|a s IH]; [reflexivity|].
  rewrite app_String. simpl. rewrite IH. now rewrite orb_assoc.
Qed.

Section Registry.

Context {W : Type} (libc : Libc W).

Lemma GetSymbolFileData_lookup module (st : State W) s f d st1 :
  GetSymbolFileData libc module st = Some ((s, f, d), st1) ->
  exists st0 : State W,
    GetSymbolFile libc module st = Some ((s, f), st0)
    /\ world st1 = world st0
    /\ (s <> FOUND -> d = "" /\ st1 = st0).
Proof.
  unfold GetSymbolFileData, bind. intros H.
  destruct (GetSymbolFile libc module st) as [[[s0 f0] st0]|]; [|discriminate].
  simpl in H. exists st0.
  destruct s0; simpl in H; unfold do_ifstream, bind, ret in H;
    repeat case_match; simplify_eq;
    (split; [reflexivity|]); (split; [reflexivity|]);
    intros Hs; solve [congruence | auto].
Qed.

Lemma data_without_FF module (st : State W) r file data st' :
  GetSymbolFileData libc module st = Some ((r, file, data), st') ->
  occurs Str.EOF_char data = false.
Proof.
  intros H. destruct r;
    try (apply GetSymbolFileData_lookup in H as (st0 & _ & _ & Hd);
         destruct Hd as [-> _]; [discriminate | reflexivity]).
  apply GetSymbolFileData_found in H as (st0 & _ & _ & ->).
  destruct (ifstream_read libc (world st0) (Str.c_str file)) as [c|]; [|reflexivity].
  apply getline_split.
Qed.

(** X13: the data GetSymbolFile hands out never holds a 0xFF byte and is
    empty unless the result is FOUND; for a FOUND file that reads as some
    contents, the data is the beginning of the contents, and anything
    left out starts with a 0xFF byte. *)
Theorem GetSymbolFileData_data
    (module : option CodeModule) (st : State W)
    (r : SymbolResult) (file data : string) (st' : State W) :
  GetSymbolFileData libc module st = Some ((r, file, data), st') ->
  occurs Str.EOF_char data = false
  /\ (r <> FOUND -> data = "")
  /\ (forall content : string,
        r = FOUND ->
        ifstream_read libc (world st') (Str.c_str file) = Some content ->
        exists rest : string,
          content = data ++ rest
          /\ (rest = "" \/ exists rest' : string, rest = String Str.EOF_char rest')).
Proof.
  intros H.
  assert (r <> FOUND -> data = "") as Hnot
      by (intros Hr; apply GetSymbolFileData_lookup in H as (st0 & _ & _ & Hd);
          now apply Hd).
  destruct r;
    try (rewrite Hnot by discriminate;
         split; [reflexivity|]; split; [reflexivity | discriminate]).
  apply GetSymbolFileData_found in H as (st0 & _ & -> & ->). simpl world.
  destruct (ifstream_read libc (world st0) (Str.c_str file)) as [c|].
  - destruct (getline_split c Str.EOF_char) as [Ho Hs].
    split; [exact Ho|]. split; [exact Hnot|].
    intros content _ [= <-]. exact Hs.
  - split; [reflexivity|]. split; [exact Hnot | discriminate].
Qed.

(** X14: the array of a FOUND result has exactly the reported number of
    bytes, at least one; its last byte is NUL, so that the C string in it is
    shorter than the reported size, and it holds no 0xFF byte. *)
Theorem GetCStringSymbolData_array
    (m : CodeModule) (st : State W) (file : string) (p : positive) (n : nat)
    (st' : State W) :
  GetCStringSymbolData libc (Some m) st = Some ((FOUND, file, Some (Some p, n)), st') ->
  exists arr : string,
    heap st' !! p = Some arr
    /\ String.length arr = n
    /\ String.get (n - 1) arr = Some Str.NUL
    /\ (String.length (Str.c_str arr) < n)%nat
    /\ occurs Str.EOF_char arr = false.
Proof.
  intros H. apply GetCStringSymbolData_found in H as (d & st1 & Hd & -> & _ & _ & Hh & _).
  apply data_without_FF in Hd as Ho.
  exists (d ++ String Str.NUL ""). split; [rewrite Hh; apply lookup_insert_eq|].
  split; [rewrite length_app; reflexivity|].
  split; [rewrite Nat.add_sub; apply get_app_length|].
  split; [pose proof (length_c_str_terminated d ""); lia|].
  rewrite occurs_app, Ho. reflexivity.
Qed.

End Registry.

Section Release.

Context {W : Type} (libc : Libc W).

(** What a call can return: NOT_FOUND with nothing assigned, allocated
    or registered, or FOUND with an array.  INTERRUPT is not among the
    results, the test that would lead to it being on a pointer that is never
    null. *)
Lemma GetCStringSymbolData_results
    (module : option CodeModule) (st : State W)
    (r : SymbolResult) (file : string) (out : c_string_out) (st' : State W) :
  GetCStringSymbolData libc module st = Some ((r, file, out), st') ->
  r = NOT_FOUND /\ file = "" /\ out = None
    /\ heap st' = heap st /\ memory_buffers_ st' = memory_buffers_ st
  \/ r = FOUND /\ exists (p : positive) (n : nat), out = Some (Some p, n).
Proof.
  unfold GetCStringSymbolData, bind. intros H.
  destruct (GetSymbolFileData libc module st) as [[[[s f] d] st1]|] eqn:Ed;
    [|discriminate].
  pose proof (GetSymbolFileData_members libc module _ _ _ Ed) as (Hh & Hm & _).
  apply GetSymbolFileData_lookup in Ed as (st0 & Hlook & _ & _).
  apply GetSymbolFile_from_result in Hlook as [[-> ->]|[-> _]]; simpl in H.
  - inversion H; subst. left. auto.
  - destruct (new_char libc (heap st1) (String.length d + 1)) as [p|]; [|discriminate].
    destruct module; inversion H; subst. right. eauto.
Qed.

(** X15: GetCStringSymbolData returns FOUND or NOT_FOUND, never
    INTERRUPT; with a result other than FOUND symbol_file is empty, the
    output parameters are not assigned, and heap and registry are as
    before: only a FOUND result allocates or registers anything. *)
Theorem GetCStringSymbolData_not_found
    (module : option CodeModule) (st : State W)
    (r : SymbolResult) (file : string) (out : c_string_out) (st' : State W) :
  GetCStringSymbolData libc module st = Some ((r, file, out), st') ->
  r <> FOUND ->
  r = NOT_FOUND /\ file = "" /\ out = None
  /\ heap st' = heap st /\ memory_buffers_ st' = memory_buffers_ st.
Proof.
  intros H Hr. apply GetCStringSymbolData_results in H as [H|[? _]];
    [exact H | congruence].
Qed.

(** X16: FreeSymbolData removes the module's entry and frees the array
    registered under it, nothing else: afterwards the registry has no entry
    for the code file, the other entries are as before, the registered
    array is gone from the heap and every other array is still there; the
    world is not touched. *)
Theorem FreeSymbolData_frees_registered (m : CodeModule) (st : State W) :
  exists st' : State W,
    FreeSymbolData (Some m) st = Some (tt, st')
    /\ memory_buffers_ st' !! code_file m = None
    /\ (forall key : string,
          key <> code_file m -> memory_buffers_ st' !! key = memory_buffers_ st !! key)
    /\ (forall q : positive,
          heap st' !! q
          = if decide (memory_buffers_ st !! code_file m = Some q) then None
            else heap st !! q)
    /\ world st' = world st.
Proof.
  unfold FreeSymbolData. simpl.
  destruct (memory_buffers_ st !! code_file m) as [p|] eqn:E; eexists;
    (split; [reflexivity|]); simpl.
  - split; [apply lookup_delete_eq|].
    split; [intros key Hkey; now apply lookup_delete_ne|].
    split; [|reflexivity].
    intros q. destruct (decide (Some p = Some q)) as [[= ->]|Hne].
    + apply lookup_delete_eq.
    + apply lookup_delete_ne. congruence.
  - split; [exact E|]. split; [reflexivity|]. split; [|reflexivity].
    intros q. now destruct (decide (None = Some q)).
Qed.

(** X17: a second FreeSymbolData for the same module finds no entry and
    changes neither heap nor registry: no array is freed twice. *)
Theorem FreeSymbolData_twice (m : CodeModule) (st : State W) :
  exists st1 st2 : State W,
    FreeSymbolData (Some m) st = Some (tt, st1)
    /\ FreeSymbolData (Some m) st1 = Some (tt, st2)
    /\ heap st2 = heap st1
    /\ memory_buffers_ st2 = memory_buffers_ st1
    /\ world st2 = world st.
Proof.
  unfold FreeSymbolData. simpl.
  destruct (memory_buffers_ st !! code_file m) as [p|] eqn:E; eexists _, _;
    (split; [reflexivity|]); simpl.
  - rewrite lookup_delete_eq. repeat split.
  - rewrite E. repeat split.
Qed.

(** X18: a buffer obtained for a module without registry entry, at an
    address not in use before, is given back by FreeSymbolData: registry and
    heap are then what they were before the request. *)
Theorem GetCStringSymbolData_then_free
    (m : CodeModule) (st : State W) (file : string) (p : positive) (n : nat)
    (st1 : State W) :
  memory_buffers_ st !! code_file m = None ->
  heap st !! p = None ->
  GetCStringSymbolData libc (Some m) st = Some ((FOUND, file, Some (Some p, n)), st1) ->
  exists st2 : State W,
    FreeSymbolData (Some m) st1 = Some (tt, st2)
    /\ memory_buffers_ st2 = memory_buffers_ st
    /\ heap st2 = heap st
    /\ world st2 = world st1.
Proof.
  intros Habs Hfresh H.
  apply GetCStringSymbolData_found in H as (d & st0 & Hd & _ & _ & _ & Hh & Hb).
  apply GetSymbolFileData_members in Hd as (Hh0 & Hm0 & _).
  rewrite Hh0 in Hh. rewrite Hm0 in Hb.
  unfold map_insert in Hb. rewrite Habs in Hb.
  eexists. unfold FreeSymbolData. simpl. rewrite Hb, lookup_insert_eq.
  split; [reflexivity|]. simpl. rewrite ?Hb, ?Hh.
  split; [now apply delete_insert_id|]. split; [now apply delete_insert_id | reflexivity].
Qed.

(** X19: a buffer obtained while another one is registered for the same
    code file cannot be released through FreeSymbolData: the first call
    frees the registered array and removes the entry, a further call finds
    nothing, and the later buffer is still allocated. *)
Theorem GetCStringSymbolData_second_buffer_stays
    (m : CodeModule) (st : State W) (file : string) (p q : positive) (n : nat)
    (st1 : State W) :
  memory_buffers_ st !! code_file m = Some q ->
  p <> q ->
  GetCStringSymbolData libc (Some m) st = Some ((FOUND, file, Some (Some p, n)), st1) ->
  exists (st2 st3 : State W) (arr : string),
    FreeSymbolData (Some m) st1 = Some (tt, st2)
    /\ FreeSymbolData (Some m) st2 = Some (tt, st3)
    /\ memory_buffers_ st2 !! code_file m = None
    /\ heap st1 !! p = Some arr
    /\ heap st2 !! p = Some arr
    /\ heap st3 !! p = Some arr.
Proof.
  intros Hq Hpq H.
  apply GetCStringSymbolData_found in H as (d & st0 & Hd & _ & _ & _ & Hh & Hb).
  apply GetSymbolFileData_members in Hd as (_ & Hm0 & _).
  rewrite Hm0, (map_insert_present _ _ _ _ Hq) in Hb.
  eexists _, _, (d ++ String Str.NUL ""). unfold FreeSymbolData. simpl. rewrite Hb, Hq.
  split; [reflexivity|]. simpl.
  rewrite ?Hb, lookup_delete_eq. split; [reflexivity|]. simpl.
  split; [reflexivity|].
  rewrite lookup_delete_ne by congruence. rewrite Hh, lookup_insert_eq. auto.
Qed.

End Release.

Lemma GetSymbolFileData_data_witness :
  exists st' : State MemFS.fs,
    GetSymbolFileData (offline_libc 0) (Some app_exe)
      (MemFS.init (cache_with sym_with_FF) ["/cache"])
    = Some ((FOUND, app_sym, "MODULE"), st')
    /\ occurs Str.EOF_char "MODULE" = false
    /\ (FOUND <> FOUND -> "MODULE" = "")
    /\ (forall content : string,
          FOUND = FOUND ->
          ifstream_read (offline_libc 0) (world st') (Str.c_str app_sym) = Some content ->
          exists rest : string,
            content = "MODULE" ++ rest
            /\ (rest = "" \/ exists rest' : string, rest = String Str.EOF_char rest')).
Proof.
  assert (exists st' : State MemFS.fs,
             GetSymbolFileData (offline_libc 0) (Some app_exe)
               (MemFS.init (cache_with sym_with_FF) ["/cache"])
             = Some ((FOUND, app_sym, "MODULE"), st')) as [st' Hrun]
    by (eexists; vm_compute; reflexivity).
  exists st'. split; [exact Hrun|].
  exact (GetSymbolFileData_data (offline_libc 0) _ _ _ _ _ _ Hrun).
Defined.

Lemma GetCStringSymbolData_array_witness :
  exists (st' : State MemFS.fs) (arr : string),
    GetCStringSymbolData (offline_libc 0) (Some app_exe)
      (MemFS.init (cache_with "MODULE x") ["/cache"])
    = Some ((FOUND, app_sym, Some (Some 1%positive, 9%nat)), st')
    /\ heap st' !! 1%positive = Some arr
    /\ String.length arr = 9%nat
    /\ String.get (9 - 1) arr = Some Str.NUL
    /\ (String.length (Str.c_str arr) < 9)%nat
    /\ occurs Str.EOF_char arr = false.
Proof.
  assert (exists st' : State MemFS.fs,
             GetCStringSymbolData (offline_libc 0) (Some app_exe)
               (MemFS.init (cache_with "MODULE x") ["/cache"])
             = Some ((FOUND, app_sym, Some (Some 1%positive, 9%nat)), st')) as [st' Hrun]
    by (eexists; vm_compute; reflexivity).
  destruct (GetCStringSymbolData_array (offline_libc 0) _ _ _ _ _ _ Hrun) as [arr H].
  exists st', arr. split; [exact Hrun | exact H].
Defined.

Lemma GetCStringSymbolData_not_found_witness :
  exists st' : State MemFS.fs,
    GetCStringSymbolData (offline_libc 0) (Some app_exe)
      (MemFS.init cache_only ["/cache"; "/other"])
    = Some ((NOT_FOUND, "", None), st')
    /\ NOT_FOUND = NOT_FOUND /\ "" = "" /\ (None : c_string_out) = None
    /\ heap st' = ∅ /\ memory_buffers_ st' = ∅.
Proof.
  assert (exists st' : State MemFS.fs,
             GetCStringSymbolData (offline_libc 0) (Some app_exe)
               (MemFS.init cache_only ["/cache"; "/other"])
             = Some ((NOT_FOUND, "", None), st')) as [st' Hrun]
    by (eexists; vm_compute; reflexivity).
  exists st'. split; [exact Hrun|].
  apply (GetCStringSymbolData_not_found (offline_libc 0) _ _ _ _ _ _ Hrun).
  discriminate.
Defined.

Lemma GetCStringSymbolData_then_free_witness :
  exists st2 : State MemFS.fs,
    FreeSymbolData (Some app_exe) app_requested_once = Some (tt, st2)
    /\ memory_buffers_ st2 = ∅
    /\ heap st2 = ∅
    /\ world st2 = cache_with "MODULE x".
Proof.
  apply (GetCStringSymbolData_then_free (offline_libc 0) app_exe
           (MemFS.init (cache_with "MODULE x") ["/cache"]) app_sym 1%positive 9%nat
           app_requested_once).
  - reflexivity.
  - reflexivity.
  - vm_compute. reflexivity.
Defined.

Lemma GetCStringSymbolData_second_buffer_stays_witness :
  exists (st1 st2 st3 : State MemFS.fs) (arr : string),
    GetCStringSymbolData (offline_libc 0) (Some app_exe) app_requested_once
    = Some ((FOUND, app_sym, Some (Some 2%positive, 9%nat)), st1)
    /\ FreeSymbolData (Some app_exe) st1 = Some (tt, st2)
    /\ FreeSymbolData (Some app_exe) st2 = Some (tt, st3)
    /\ memory_buffers_ st2 !! code_file app_exe = None
    /\ heap st1 !! 2%positive = Some arr
    /\ heap st2 !! 2%positive = Some arr
    /\ heap st3 !! 2%positive = Some arr.
Proof.
  assert (exists st1 : State MemFS.fs,
             GetCStringSymbolData (offline_libc 0) (Some app_exe) app_requested_once
             = Some ((FOUND, app_sym, Some (Some 2%positive, 9%nat)), st1)) as [st1 Hrun]
    by (eexists; vm_compute; reflexivity).
  destruct (GetCStringSymbolData_second_buffer_stays (offline_libc 0) app_exe
              app_requested_once app_sym 2%positive 1%positive 9%nat st1)
    as (st2 & st3 & arr & H); [reflexivity | discriminate | exact Hrun |].
  exists st1, st2, st3, arr. split; [exact Hrun | exact H].
Defined.

(** The directories asked for on the way to the native file of [app_exe]. *)
Example ancestors_app_pdb :
  ancestors app_pdb = ["/cache"; "/cache/app.pdb"; "/cache/app.pdb/ABC123"].
Proof. reflexivity. Qed.
